(** * CND_Project: the authentication and session subsystem

    A shallow embedding of [backend/server.js] (the Express handlers) and of
    [frontend/src/context/AuthContext.jsx] (the React session store), with
    the properties of the session subsystem stated and proved over it.

    The handlers are glue around external collaborators (the Mongoose
    models, bcrypt, jsonwebtoken).  Those are taken as interfaces (type
    classes); every theorem holds for every implementation of them, and a
    small in-memory implementation is supplied to run the handlers on
    concrete requests. *)

From Stdlib Require Import ZArith String Ascii List Bool.
From stdpp Require Import base option gmap strings list pretty.

Local Open Scope Z_scope.
Local Open Scope string_scope.

(** ** JavaScript values *)

Set Warnings "-register-all".

Module Js.

(** The JSON-shaped fragment of JavaScript values that crosses the HTTP
    boundary, plus [undefined]. *)
Inductive value : Type :=
| VUndefined
| VNull
| VBool (b : bool)
| VNum (n : Z)
| VStr (s : string)
| VArr (items : list value)
| VObj (fields : list (string * value)).

(** An exception value: [new Error(message)] with its [name]. *)
Record exn : Type := MkExn { exn_name : string; exn_message : string }.

(** The outcome of evaluating an expression that may throw, or of
    awaiting a promise that may reject. *)
Inductive result (A : Type) : Type :=
| Ok (a : A)
| Throw (e : exn).
Global Arguments Ok {A} a.
Global Arguments Throw {A} e.

(** ToBoolean: [undefined], [null], [false], [0] and [""] are falsy. *)
Definition truthy (v : value) : bool :=
  match v with
  | VUndefined | VNull => false
  | VBool b => b
  | VNum n => negb (Z.eqb n 0)
  | VStr s => negb (String.eqb s "")
  | VArr _ | VObj _ => true
  end.

(** [a || b] *)
Definition or_else (a b : value) : value := if truthy a then a else b.

(** A string-or-undefined slot ([process.env.X], [req.cookies.x],
    a schema field of type String) seen as a value. *)
Definition of_opt (o : option string) : value :=
  match o with
  | Some s => VStr s
  | None => VUndefined
  end.

Fixpoint assoc (k : string) (fields : list (string * value)) : value :=
  match fields with
  | [] => VUndefined
  | (k', v) :: rest => if String.eqb k k' then v else assoc k rest
  end.

(** [o.k] for a property name that no primitive wrapper or array
    defines: the field of an object, [undefined] otherwise.  Reading a
    property of [undefined] or [null] throws; see [destructurable]. *)
Definition prop (k : string) (o : value) : value :=
  match o with
  | VObj fields => assoc k fields
  | _ => VUndefined
  end.

(** [const { ... } = o] and [o.k] throw a TypeError on [undefined] and [null]. *)
Definition destructurable (o : value) : result unit :=
  match o with
  | VUndefined | VNull =>
      Throw (MkExn "TypeError" "Cannot destructure or read a property of undefined or null")
  | _ => Ok tt
  end.

(** [s.split(sep)] for a one-character separator. *)
Fixpoint split (sep : ascii) (s : string) : list string :=
  match s with
  | EmptyString => [EmptyString]
  | String c rest =>
      if Ascii.eqb c sep then EmptyString :: split sep rest
      else match split sep rest with
           | [] => [String c EmptyString]
           | w :: ws => String c w :: ws
           end
  end.

(** Does the key [k] occur as a field name anywhere inside [v]? *)
Fixpoint has_key (k : string) (v : value) : bool :=
  match v with
  | VArr items => existsb (has_key k) items
  | VObj fields =>
      existsb (fun kv : string * value =>
                 match kv with (k', w) => orb (String.eqb k k') (has_key k w) end) fields
  | _ => false
  end.

End Js.
Import Js.

(** ** Effects: exceptions over mutable state *)

Module Eff.

(** A computation that may throw and that updates the state [S], also
    when it throws. *)
Definition M (S A : Type) : Type := S -> result A * S.

Definition ret {S A} (a : A) : M S A := fun s => (Ok a, s).

Definition bind {S A B} (m : M S A) (k : A -> M S B) : M S B :=
  fun s =>
    match m s with
    | (Ok a, s') => k a s'
    | (Throw e, s') => (Throw e, s')
    end.

Definition throw {S A} (e : exn) : M S A := fun s => (Throw e, s).

(** An expression that may throw, or the [await] of a promise that may
    reject, without effect on the state. *)
Definition eval {S A} (r : result A) : M S A := fun s => (r, s).

(** [try { m } catch (err) { h err }] *)
Definition try_catch {S A} (m : M S A) (h : exn -> M S A) : M S A :=
  fun s =>
    match m s with
    | (Ok a, s') => (Ok a, s')
    | (Throw e, s') => h e s'
    end.

(** [try { m } finally { f }]: [f] runs however [m] ends; the outcome is
    that of [m] unless [f] itself throws. *)
Definition try_finally {S A} (m : M S A) (f : M S unit) : M S A :=
  fun s =>
    match m s with
    | (r, s') =>
        match f s' with
        | (Ok _, s'') => (r, s'')
        | (Throw e, s'') => (Throw e, s'')
        end
    end.

Declare Scope eff_scope.
Delimit Scope eff_scope with eff.
Notation "x <- m ;; k" := (bind m (fun x => k))
  (at level 100, m at next level, right associativity) : eff_scope.
Notation "m ;; k" := (bind m (fun _ => k))
  (at level 100, right associativity) : eff_scope.

End Eff.
Import Eff.
Local Open Scope eff_scope.

(** ** The HTTP boundary *)

Module Http.

(** The parts of an Express request that the handlers read.  [cookies] is
    what cookie-parser produces, [headers] has lower-cased names, [body]
    is what the JSON and urlencoded body parsers leave in [req.body]. *)
Record Req : Type := MkReq {
  body : value;
  cookies : gmap string string;
  headers : gmap string string
}.

(** The options object of [res.cookie] and [res.clearCookie]. *)
Record CookieOpts : Type := MkCookieOpts {
  httpOnly : option bool;
  secure : option bool;
  sameSite : option string;
  maxAge : option Z
}.

Definition no_opts : CookieOpts := MkCookieOpts None None None None.

Inductive CookieOp : Type :=
| SetCookie (name : string) (val : value) (opts : CookieOpts)
| ClearCookie (name : string) (opts : CookieOpts).

Definition cookie_name (c : CookieOp) : string :=
  match c with
  | SetCookie n _ _ => n
  | ClearCookie n _ => n
  end.

Definition is_set (c : CookieOp) : bool :=
  match c with
  | SetCookie _ _ _ => true
  | ClearCookie _ _ => false
  end.

Inductive Payload : Type :=
| Json (v : value)
| Text (s : string).

(** The Express response object: the status code (200 until set), the
    cookie instructions in the order they were issued, and the payload
    once one has been sent. *)
Record Res : Type := MkRes {
  statusCode : Z;
  set_cookies : list CookieOp;
  sent : option Payload
}.

Definition fresh_res : Res := MkRes 200 [] None.

End Http.
Import Http.

(** ** External collaborators *)

Module Models.

(** Modelled from the spec: the schema file [models/User.js] is not part of
    the sources at hand.  The spec's data model gives a User the fields
    unique email, password hash, full name, doctor identifier, hospital
    name, area and an optional profile picture; the handlers read exactly
    these, plus the document id.  Every field but the id may be unset
    ([None] is [undefined]). *)
Record User : Type := MkUser {
  _id : string;
  fullName : option string;
  doctorId : option string;
  email : option string;
  passwordHash : option string;
  hospitalName : option string;
  area : option string;
  profilePicture : option string
}.

(** The object literal handed to [new User({...})] by the register handler. *)
Record UserInput : Type := MkUserInput {
  in_fullName : value;
  in_doctorId : value;
  in_email : value;
  in_passwordHash : string;
  in_hospitalName : value;
  in_area : value
}.

(** The [User] Mongoose model over a store of type [D].  Queries may
    reject and do not write; [save] may reject and may write. *)
Class UserModel (D : Type) : Type := {
  findOne_email : value -> D -> result (option User);
  findById : value -> D -> result (option User);
  new_User : UserInput -> D -> User;
  save : User -> D -> result unit * D
}.

(** The filters the handlers pass to [Analysis.countDocuments]. *)
Inductive Filter : Type :=
| AllDocuments
| CreatedAtGte (t : Z)
| DiagnosisRegex (pattern : string) (flags : string).

(** The [Analysis] Mongoose model. *)
Class AnalysisModel (D : Type) : Type := {
  countDocuments : Filter -> D -> result Z;
  find_sort_createdAt_desc : D -> result (list value)
}.

(** bcrypt: [hash(data, rounds)] and [compare(data, encrypted)]. *)
Class Bcrypt : Type := {
  bcrypt_hash : value -> Z -> result string;
  bcrypt_compare : value -> value -> result bool
}.

(** jsonwebtoken: [sign(payload, secret, {expiresIn})] and
    [verify(token, secret)], both reading the clock (the last argument,
    in milliseconds). *)
Class Jwt : Type := {
  jwt_sign : value -> value -> string -> Z -> result string;
  jwt_verify : value -> value -> Z -> result value
}.

(** [query.select("-passwordHash")]: the exclusion projection drops that
    one field from the document the query resolves to. *)
Definition select_minus_passwordHash (u : User) : User :=
  MkUser (_id u) (fullName u) (doctorId u) (email u) None
         (hospitalName u) (area u) (profilePicture u).

Definition field (k : string) (o : option string) : list (string * value) :=
  match o with
  | Some s => [(k, VStr s)]
  | None => []
  end.

(** What [res.json] makes of a document: the fields that are set. *)
Definition toJSON (u : User) : value :=
  VObj ([("_id", VStr (_id u))]
        ++ field "fullName" (fullName u)
        ++ field "doctorId" (doctorId u)
        ++ field "email" (email u)
        ++ field "passwordHash" (passwordHash u)
        ++ field "hospitalName" (hospitalName u)
        ++ field "area" (area u)
        ++ field "profilePicture" (profilePicture u)).

End Models.
Import Models.

(** ** backend/server.js *)

Module Server.

(** Lines 40-41: the module-level constants read from [process.env]. *)
Record Config : Type := MkConfig {
  JWT_SECRET : option string;
  USE_JWT : bool
}.

Definition load_config (env : gmap string string) : Config :=
  let secret := env !! "JWT_SECRET" in
  MkConfig secret (negb (negb (truthy (of_opt secret)))).

(** What a handler can touch while it runs: the response object, the
    database behind the models, the console, and the clock. *)
Record St (D : Type) : Type := MkSt {
  res : Res;
  db : D;
  console : list (string * exn);
  clock : Z
}.
Global Arguments MkSt {D} res db console clock.
Global Arguments res {D} s.
Global Arguments db {D} s.
Global Arguments console {D} s.
Global Arguments clock {D} s.

Abbreviation M D := (Eff.M (St D)).

(** [await] of a read-only query on the store. *)
Definition query {D A} (q : D -> result A) : M D A := fun s => (q (db s), s).

(** [await] of an operation that may write to the store. *)
Definition command {D A} (c : D -> result A * D) : M D A :=
  fun s =>
    let (r, d) := c (db s) in
    (r, MkSt (res s) d (console s) (clock s)).

Definition with_res {D} (f : Res -> Res) : M D unit :=
  fun s => (Ok tt, MkSt (f (res s)) (db s) (console s) (clock s)).

Definition res_status {D} (code : Z) : M D unit :=
  with_res (fun r => MkRes code (set_cookies r) (sent r)).

Definition res_json {D} (v : value) : M D unit :=
  with_res (fun r => MkRes (statusCode r) (set_cookies r) (Some (Json v))).

Definition res_send {D} (s : string) : M D unit :=
  with_res (fun r => MkRes (statusCode r) (set_cookies r) (Some (Text s))).

Definition res_cookie {D} (name : string) (v : value) (o : CookieOpts) : M D unit :=
  with_res (fun r => MkRes (statusCode r) (set_cookies r ++ [SetCookie name v o]) (sent r)).

Definition res_clearCookie {D} (name : string) (o : CookieOpts) : M D unit :=
  with_res (fun r => MkRes (statusCode r) (set_cookies r ++ [ClearCookie name o]) (sent r)).

Definition console_error {D} (label : string) (err : exn) : M D unit :=
  fun s => (Ok tt, MkSt (res s) (db s) (console s ++ [(label, err)]) (clock s)).

Definition Date_now {D} : M D Z := fun s => (Ok (clock s), s).

Definition message (m : string) : value := VObj [("message", VStr m)].

(** [req.headers.authorization?.split(" ")[1]] *)
Definition bearer (req : Req) : value :=
  match headers req !! "authorization" with
  | None => VUndefined
  | Some a => of_opt (split " "%char a !! 1%nat)
  end.

(** [{ user: { id: user._id, email: user.email, fullName: user.fullName } }] *)
Definition user_summary (user : User) : value :=
  VObj [("user", VObj [("id", VStr (_id user));
                       ("email", of_opt (email user));
                       ("fullName", of_opt (fullName user))])].

(** 7 * 24 * 60 * 60 * 1000 *)
Definition seven_days_ms : Z := 7 * 24 * 60 * 60 * 1000.

Section Handlers.

Context {D : Type} {UM : UserModel D} {AM : AnalysisModel D} {BC : Bcrypt} {JW : Jwt}.
Variable cfg : Config.

(** The branch on [USE_JWT] that ends the register and login handlers. *)
Definition issue_session (user : User) : M D unit :=
  if USE_JWT cfg then
    now <- Date_now;;
    token <- eval (jwt_sign (VObj [("id", VStr (_id user)); ("email", of_opt (email user))])
                            (of_opt (JWT_SECRET cfg)) "7d" now);;
    res_cookie "token" (VStr token)
               (MkCookieOpts (Some true) (Some true) (Some "none") (Some seven_days_ms));;
    res_json (user_summary user)
  else
    res_cookie "user_email" (of_opt (email user))
               (MkCookieOpts (Some false) None (Some "lax") None);;
    res_json (user_summary user).

Definition register_try (req : Req) : M D unit :=
  eval (destructurable (body req));;
  let fullName := prop "fullName" (body req) in
  let doctorId := prop "doctorId" (body req) in
  let email := prop "email" (body req) in
  let password := prop "password" (body req) in
  let hospitalName := prop "hospitalName" (body req) in
  let area := prop "area" (body req) in
  if negb (truthy email) || negb (truthy password) then
    res_status 400;; res_json (message "Email and password are required")
  else
    existing <- query (findOne_email email);;
    match existing with
    | Some _ => res_status 409;; res_json (message "User already exists")
    | None =>
        hashed <- eval (bcrypt_hash password 10);;
        user <- query (fun d =>
                  Ok (new_User (MkUserInput fullName doctorId email hashed hospitalName area) d));;
        command (save user);;
        issue_session user
    end.

Definition register (req : Req) : M D unit :=
  try_catch (register_try req)
            (fun err => console_error "Register error:" err;;
                        res_status 500;; res_json (message "Server error")).

Definition login_try (req : Req) : M D unit :=
  eval (destructurable (body req));;
  let email := prop "email" (body req) in
  let password := prop "password" (body req) in
  found <- query (findOne_email email);;
  match found with
  | None => res_status 401;; res_json (message "Invalid credentials")
  | Some user =>
      isMatch <- eval (bcrypt_compare password (of_opt (passwordHash user)));;
      if negb isMatch then
        res_status 401;; res_json (message "Invalid credentials")
      else issue_session user
  end.

Definition login (req : Req) : M D unit :=
  try_catch (login_try req)
            (fun err => console_error "Login error:" err;;
                        res_status 500;; res_json (message "Server error")).

(** The identity lookup shared, line for line, by [/api/auth/me] and
    [/api/profile]: it either answers 401 itself ([inl]) or yields the
    looked-up document, [null] when there is none ([inr]). *)
Definition resolve_user (req : Req) : M D (unit + option User) :=
  if USE_JWT cfg then
    let token := or_else (of_opt (cookies req !! "token")) (bearer req) in
    if negb (truthy token) then
      res_status 401;; res_json (message "Not authenticated");; ret (inl tt)
    else
      now <- Date_now;;
      decoded <- eval (jwt_verify token (of_opt (JWT_SECRET cfg)) now);;
      eval (destructurable decoded);;
      user <- query (findById (prop "id" decoded));;
      ret (inr (select_minus_passwordHash <$> user))
  else
    let email := or_else (of_opt (cookies req !! "user_email"))
                         (of_opt (headers req !! "x-user-email")) in
    if negb (truthy email) then
      res_status 401;; res_json (message "Not authenticated");; ret (inl tt)
    else
      user <- query (findOne_email email);;
      ret (inr (select_minus_passwordHash <$> user)).

Definition me_try (req : Req) : M D unit :=
  r <- resolve_user req;;
  match r with
  | inl _ => ret tt
  | inr None => res_status 404;; res_json (message "User not found")
  | inr (Some user) => res_json (VObj [("user", toJSON user)])
  end.

Definition me (req : Req) : M D unit :=
  try_catch (me_try req)
            (fun err => console_error "Auth/me error:" err;;
                        res_status 401;; res_json (message "Invalid or expired token")).

Definition logout_try (req : Req) : M D unit :=
  res_clearCookie "token" (MkCookieOpts None (Some true) (Some "none") None);;
  res_clearCookie "user_email" no_opts;;
  res_json (VObj [("ok", VBool true)]).

Definition logout (req : Req) : M D unit :=
  try_catch (logout_try req)
            (fun err => console_error "Logout error:" err;;
                        res_status 500;; res_json (VObj [("error", VStr "Logout failed")])).

Definition profile_try (req : Req) : M D unit :=
  r <- resolve_user req;;
  match r with
  | inl _ => ret tt
  | inr None => res_status 404;; res_json (message "User not found")
  | inr (Some user) =>
      res_json (VObj [("full_name", or_else (of_opt (fullName user)) (VStr ""));
                      ("doctor_id", or_else (of_opt (doctorId user)) (VStr ""));
                      ("email", or_else (of_opt (email user)) (VStr ""));
                      ("hospital_name", or_else (of_opt (hospitalName user)) (VStr ""));
                      ("area", or_else (of_opt (area user)) (VStr ""));
                      ("profile_picture", or_else (of_opt (profilePicture user)) (VStr ""))])
  end.

Definition profile (req : Req) : M D unit :=
  try_catch (profile_try req)
            (fun err => console_error "Profile fetch error:" err;;
                        res_status 500;;
                        res_json (VObj [("error", VStr "Failed to fetch profile")])).

Definition category_counts_try (req : Req) : M D unit :=
  totalCount <- query (countDocuments AllDocuments);;
  now <- Date_now;;
  let last24h := now - 24 * 60 * 60 * 1000 in
  todayCount <- query (countDocuments (CreatedAtGte last24h));;
  cancerCount <- query (countDocuments (DiagnosisRegex "Cancer|Benign|Malignant|Normal" "i"));;
  neuroCount <- query (countDocuments (DiagnosisRegex "Seizure|MS|Alzheimer|Control" "i"));;
  res_json (VObj [("todayCount", VNum todayCount); ("totalCount", VNum totalCount);
                  ("cancerCount", VNum cancerCount); ("neuroCount", VNum neuroCount)]).

Definition category_counts (req : Req) : M D unit :=
  try_catch (category_counts_try req)
            (fun err => console_error "Category counts error:" err;;
                        res_status 500;; res_json (message "Server error")).

Definition history_try (req : Req) : M D unit :=
  analyses <- query find_sort_createdAt_desc;;
  res_json (VArr analyses).

Definition history (req : Req) : M D unit :=
  try_catch (history_try req)
            (fun err => console_error "History fetch error:" err;;
                        res_status 500;; res_json (message "Server error")).

Definition health (req : Req) : M D unit :=
  res_send "✅ MedAI backend running successfully".

(** The routing table. *)
Inductive Route : Type :=
| PostRegister | PostLogin | GetMe | PostLogout | GetProfile
| GetCategoryCounts | GetHistory | GetRoot.

Definition handler (r : Route) : Req -> M D unit :=
  match r with
  | PostRegister => register
  | PostLogin => login
  | GetMe => me
  | PostLogout => logout
  | GetProfile => profile
  | GetCategoryCounts => category_counts
  | GetHistory => history
  | GetRoot => health
  end.

(** The [try] block of each route (the health check is a single statement
    outside any [try]). *)
Definition attempt (r : Route) : Req -> M D unit :=
  match r with
  | PostRegister => register_try
  | PostLogin => login_try
  | GetMe => me_try
  | PostLogout => logout_try
  | GetProfile => profile_try
  | GetCategoryCounts => category_counts_try
  | GetHistory => history_try
  | GetRoot => health
  end.

(** One request: the handler runs on a fresh response object, against the
    store as it stands, at time [now]. *)
Definition arrival (now : Z) (d : D) : St D := MkSt fresh_res d [] now.

Definition run (r : Route) (req : Req) (now : Z) (d : D) : result unit * St D :=
  handler r req (arrival now d).

End Handlers.

(** The running process: the constants fixed when the module is loaded,
    and the store the requests act on. *)
Record Process (D : Type) : Type := MkProcess {
  config : Config;
  store : D
}.
Global Arguments MkProcess {D} config store.
Global Arguments config {D} p.
Global Arguments store {D} p.

Definition start {D} (env : gmap string string) (d : D) : Process D :=
  MkProcess (load_config env) d.

(** An incoming request: route, request object, arrival time. *)
Definition Incoming : Type := Route * Req * Z.

Definition serve {D} {UM : UserModel D} {AM : AnalysisModel D} {BC : Bcrypt} {JW : Jwt}
    (p : Process D) (i : Incoming) : Res * Process D :=
  match i with
  | (r, req, now) =>
      let out := run (config p) r req now (store p) in
      (res (snd out), MkProcess (config p) (db (snd out)))
  end.

Fixpoint serve_all {D} {UM : UserModel D} {AM : AnalysisModel D} {BC : Bcrypt} {JW : Jwt}
    (p : Process D) (reqs : list Incoming) : list Res * Process D :=
  match reqs with
  | [] => ([], p)
  | i :: rest =>
      let (r, p') := serve p i in
      let (rs, p'') := serve_all p' rest in
      (r :: rs, p'')
  end.

End Server.

(** ** frontend/src/context/AuthContext.jsx *)

Module Client.

(** What [fetch] resolves to: the status line, and what [response.json()]
    resolves to (it rejects when the body is not JSON). *)
Record Response : Type := MkResponse {
  status : Z;
  json : result value
}.

(** [response.ok]: the status is in the range 200-299. *)
Definition ok (r : Response) : bool := (200 <=? status r)%Z && (status r <=? 299)%Z.

(** The init object of a [fetch] call. *)
Record Init : Type := MkInit {
  method : string;
  init_headers : list (string * string);
  credentials : string;
  init_body : option value
}.

(** The network as the browser sees it: [fetch(url, init)] resolves to a
    response or rejects (transport failure). *)
Class Network : Type := {
  fetch : string -> Init -> result Response
}.

Record Toast : Type := MkToast {
  title : string;
  description : string;
  variant : option string
}.

(** The provider's three [useState] cells, and what the hooks it calls
    act on: the router's location, the toasts shown, the console. *)
Record Store : Type := MkStore {
  user : value;
  loading : bool;
  isAuthenticated : bool;
  location : string;
  toasts : list Toast;
  console : list (string * exn)
}.

(** The [useState] initial values: [null], [true], [false]. *)
Definition initial (path : string) : Store := MkStore VNull true false path [] [].

Abbreviation C := (Eff.M Store).

Definition setUser (v : value) : C unit :=
  fun s => (Ok tt, MkStore v (loading s) (isAuthenticated s) (location s) (toasts s) (console s)).

Definition setLoading (b : bool) : C unit :=
  fun s => (Ok tt, MkStore (user s) b (isAuthenticated s) (location s) (toasts s) (console s)).

Definition setIsAuthenticated (b : bool) : C unit :=
  fun s => (Ok tt, MkStore (user s) (loading s) b (location s) (toasts s) (console s)).

Definition navigate (path : string) : C unit :=
  fun s => (Ok tt, MkStore (user s) (loading s) (isAuthenticated s) path (toasts s) (console s)).

Definition toast (t : Toast) : C unit :=
  fun s => (Ok tt, MkStore (user s) (loading s) (isAuthenticated s) (location s)
                           (toasts s ++ [t]) (console s)).

Definition console_error (label : string) (err : exn) : C unit :=
  fun s => (Ok tt, MkStore (user s) (loading s) (isAuthenticated s) (location s)
                           (toasts s) (console s ++ [(label, err)])).

Section Provider.

Context {NET : Network}.

(** The resolved API base URL (lines 23-25). *)
Variable apiBase : string.

Definition checkAuthStatus : C unit :=
  try_finally
    (try_catch
       (response <- eval (fetch (apiBase ++ "/api/auth/me")
                                (MkInit "GET" [("Content-Type", "application/json")]
                                        "include" None));;
        if ok response then
          data <- eval (json response);;
          eval (destructurable data);;
          if truthy (prop "user" data) then
            setUser (prop "user" data);;
            setIsAuthenticated true
          else
            setUser VNull;;
            setIsAuthenticated false
        else if (status response =? 401)%Z || (status response =? 403)%Z then
          setUser VNull;;
          setIsAuthenticated false
        else ret tt)
       (fun error =>
          console_error "Auth check failed:" error;;
          setUser VNull;;
          setIsAuthenticated false))
    (setLoading false).

Definition logout : C unit :=
  try_finally
    (try_catch
       (_ <- eval (fetch (apiBase ++ "/api/auth/logout") (MkInit "POST" [] "include" None));;
        ret tt)
       (fun error => console_error "Logout error:" error))
    (setUser VNull;;
     setIsAuthenticated false;;
     navigate "/login";;
     toast (MkToast "Logged out" "You have been successfully logged out" None)).

(** The text a toast shows for [data.message || fallback]: the string
    itself, a number in decimal.  The server only ever sends string
    messages; other values are not text and are shown empty here. *)
Definition text (v : value) : string :=
  match v with
  | VStr s => s
  | VNum n => pretty n
  | _ => ""
  end.

Definition login (email password : value) : C value :=
  try_finally
    (try_catch
       (setLoading true;;
        response <- eval (fetch (apiBase ++ "/api/auth/login")
                                (MkInit "POST" [("Content-Type", "application/json")]
                                        "include"
                                        (Some (VObj [("email", email);
                                                     ("password", password)]))));;
        let data := match json response with
                    | Ok v => v
                    | Throw _ => VObj []
                    end in
        succeeded <- (if ok response
                      then eval (destructurable data);; ret (truthy (prop "user" data))
                      else ret false);;
        if succeeded : bool then
          setUser (prop "user" data);;
          setIsAuthenticated true;;
          toast (MkToast "Welcome back!" "Successfully logged in" None);;
          ret (VObj [("success", VBool true)])
        else
          eval (destructurable data);;
          (if (500 <=? status response)%Z then
             toast (MkToast "Server error"
                            (text (or_else (prop "message" data)
                                           (VStr "Please try again later")))
                            (Some "destructive"))
           else ret tt);;
          ret (VObj [("success", VBool false);
                     ("error", or_else (prop "message" data)
                                       (VStr (if (status response =? 401)%Z
                                              then "Invalid email or password"
                                              else "Login failed")));
                     ("status", VNum (status response))]))
       (fun error =>
          toast (MkToast "Error" "An unexpected error occurred" (Some "destructive"));;
          ret (VObj [("success", VBool false); ("error", VStr (exn_message error))])))
    (setLoading false).

Definition register (userData : value) : C value :=
  try_finally
    (try_catch
       (setLoading true;;
        response <- eval (fetch (apiBase ++ "/api/auth/register")
                                (MkInit "POST" [("Content-Type", "application/json")]
                                        "include" (Some userData)));;
        data <- eval (json response);;
        if ok response then
          toast (MkToast "Success!" "Account created successfully. Please sign in." None);;
          ret (VObj [("success", VBool true)])
        else
          eval (destructurable data);;
          toast (MkToast "Registration failed"
                         (text (or_else (prop "message" data)
                                        (VStr "Could not create account")))
                         (Some "destructive"));;
          ret (VObj [("success", VBool false); ("error", prop "message" data)]))
       (fun error =>
          toast (MkToast "Error" "An unexpected error occurred" (Some "destructive"));;
          ret (VObj [("success", VBool false); ("error", VStr (exn_message error))])))
    (setLoading false).

End Provider.

(** The object the provider hands down ([value], lines 164-173); its
    function members are the operations above. *)
Record AuthValue : Type := MkAuthValue {
  v_user : value;
  v_loading : bool;
  v_isAuthenticated : bool;
  v_apiBase : string
}.

Definition provided (apiBase : string) (s : Store) : AuthValue :=
  MkAuthValue (user s) (loading s) (isAuthenticated s) apiBase.

(** What [useContext(AuthContext)] can return: the default of
    [createContext()], which is [undefined], or a provider's object. *)
Inductive Context : Type :=
| CtxUndefined
| CtxObject (v : AuthValue).

Definition ctx_truthy (c : Context) : bool :=
  match c with
  | CtxUndefined => false
  | CtxObject _ => true
  end.

(** [useContext(AuthContext)] in a component whose enclosing
    [AuthProvider]s, innermost first, provide [providers]. *)
Definition useContext (providers : list AuthValue) : Context :=
  match providers with
  | [] => CtxUndefined
  | v :: _ => CtxObject v
  end.

Definition useAuth (providers : list AuthValue) : result Context :=
  let context := useContext providers in
  if negb (ctx_truthy context) then
    Throw (MkExn "Error" "useAuth must be used within an AuthProvider")
  else Ok context.

End Client.

(** ** Client and server joined *)

Module Wire.

(** What [JSON.parse(JSON.stringify(v))] gives back for the value handed
    to [res.json]: fields whose value is [undefined] are dropped, and an
    [undefined] array item becomes [null]. *)
Fixpoint jsonify (v : value) : value :=
  match v with
  | VArr items =>
      VArr (map (fun x => match x with
                          | VUndefined => VNull
                          | _ => jsonify x
                          end) items)
  | VObj fields =>
      VObj (flat_map (fun kv : string * value =>
                        match kv with
                        | (_, VUndefined) => []
                        | (k, w) => [(k, jsonify w)]
                        end) fields)
  | _ => v
  end.

(** The response as [fetch] presents it to the client. *)
Definition deliver (r : Res) : Client.Response :=
  Client.MkResponse (statusCode r)
    match sent r with
    | Some (Json v) => Ok (jsonify v)
    | _ => Throw (MkExn "SyntaxError" "Unexpected token in JSON")
    end.

(** The browser's side of a credentialed request: the cookie jar goes out
    with it, and the only header the client sets is the content type. *)
Definition outgoing (jar : gmap string string) (i : Client.Init) : Req :=
  MkReq (match Client.init_body i with Some b => b | None => VObj [] end)
        jar
        (list_to_map (map (fun kv : string * string =>
                             match kv with
                             | ("Content-Type", v) => ("content-type", v)
                             | _ => kv
                             end) (Client.init_headers i))).

Definition route_of (apiBase url : string) : option Server.Route :=
  if String.eqb url (apiBase ++ "/api/auth/me") then Some Server.GetMe
  else if String.eqb url (apiBase ++ "/api/auth/logout") then Some Server.PostLogout
  else if String.eqb url (apiBase ++ "/api/auth/login") then Some Server.PostLogin
  else if String.eqb url (apiBase ++ "/api/auth/register") then Some Server.PostRegister
  else None.

(** A network whose far end is this server, with configuration [cfg] over
    the store [d] at time [now], reached by a browser holding [jar]. *)
Definition loopback {D} {UM : UserModel D} {AM : AnalysisModel D} {BC : Bcrypt} {JW : Jwt}
    (cfg : Server.Config) (d : D) (now : Z) (jar : gmap string string)
    (apiBase : string) : Client.Network :=
  {| Client.fetch url i :=
       match route_of apiBase url with
       | Some r => Ok (deliver (Server.res (snd (Server.run cfg r (outgoing jar i) now d))))
       | None => Throw (MkExn "TypeError" "Failed to fetch")
       end |}.

(** A network that is down: every [fetch] rejects. *)
Definition unreachable : Client.Network :=
  {| Client.fetch _ _ := Throw (MkExn "TypeError" "Failed to fetch") |}.

(** A network that answers every request with [r]. *)
Definition answering (r : Client.Response) : Client.Network :=
  {| Client.fetch _ _ := Ok r |}.

End Wire.

(** ** An in-memory implementation of the collaborators *)

Module Memory.

(** The store: the users collection in insertion order, and whether the
    database can be reached.  The analyses collection is empty. *)
Record Db : Type := MkDb {
  users : list User;
  online : bool
}.

Definition unreachable_error : exn :=
  MkExn "MongoNetworkError" "connection refused".

Definition guarded {A} (d : Db) (a : A) : result A :=
  if online d then Ok a else Throw unreachable_error.

Definition opt_eqb (o : option string) (v : value) : bool :=
  match o, v with
  | Some s, VStr t => String.eqb s t
  | _, _ => false
  end.

(** The String cast of a schema field, on strings; anything else is
    left unset. *)
Definition cast (v : value) : option string :=
  match v with
  | VStr s => Some s
  | _ => None
  end.

#[local] Instance user_model : UserModel Db := {|
  findOne_email v d := guarded d (List.find (fun u => opt_eqb (email u) v) (users d));
  findById v d := guarded d (List.find (fun u => opt_eqb (Some (_id u)) v) (users d));
  new_User i d :=
    MkUser ("u" ++ pretty (length (users d)))
           (cast (in_fullName i)) (cast (in_doctorId i)) (cast (in_email i))
           (Some (in_passwordHash i)) (cast (in_hospitalName i)) (cast (in_area i)) None;
  save u d :=
    if online d then (Ok tt, MkDb (users d ++ [u]) true)
    else (Throw unreachable_error, d)
|}.

#[local] Instance analysis_model : AnalysisModel Db := {|
  countDocuments _ d := guarded d 0;
  find_sort_createdAt_desc d := guarded d []
|}.

(** A stand-in for bcrypt: deterministic and unsalted, it only keeps the
    shape of the interface (strings in, a digest that [compare] accepts
    for the same data and for no other). *)
#[local] Instance bcrypt : Bcrypt := {|
  bcrypt_hash v _ :=
    match v with
    | VStr s => Ok ("$2b$10$" ++ s)
    | _ => Throw (MkExn "Error" "data must be a string or Buffer")
    end;
  bcrypt_compare v h :=
    match v, h with
    | VStr s, VStr t => Ok (String.eqb ("$2b$10$" ++ s) t)
    | _, _ => Throw (MkExn "Error" "data and hash arguments required")
    end
|}.

(** A stand-in for jsonwebtoken: the token is the secret, a dot, and the
    id; it never expires. *)
#[local] Instance jwt : Jwt := {|
  jwt_sign p k _ _ :=
    match k, prop "id" p with
    | VStr k, VStr i => Ok (k ++ "." ++ i)
    | _, _ => Throw (MkExn "Error" "secretOrPrivateKey must have a value")
    end;
  jwt_verify t k _ :=
    match t, k with
    | VStr t, VStr k =>
        if String.prefix (k ++ ".") t
        then Ok (VObj [("id", VStr (String.substring (String.length k + 1)
                                                      (String.length t) t))])
        else Throw (MkExn "JsonWebTokenError" "invalid signature")
    | _, _ => Throw (MkExn "JsonWebTokenError" "jwt must be a string")
    end
|}.

(** A jsonwebtoken whose [sign] always throws (an unusable key). *)
#[local] Instance failing_jwt : Jwt := {|
  jwt_sign _ _ _ _ := Throw (MkExn "Error" "secretOrPrivateKey is not valid key material");
  jwt_verify _ _ _ := Throw (MkExn "JsonWebTokenError" "invalid signature")
|}.

(** Concrete data for the examples. *)
Definition alice : User :=
  MkUser "u0" (Some "Alice") (Some "D-1") (Some "a@x.com") (Some "$2b$10$p1")
         (Some "General") (Some "North") None.

Definition one_user : Db := MkDb [alice] true.
Definition one_user_offline : Db := MkDb [alice] false.

Definition token_mode : Server.Config :=
  Server.load_config {["JWT_SECRET" := "s3cret"]}.
Definition cookie_mode : Server.Config := Server.load_config ∅.

Definition get (cookie_jar : list (string * string)) : Req :=
  MkReq (VObj []) (list_to_map cookie_jar) ∅.

Definition post (fields : list (string * value)) : Req :=
  MkReq (VObj fields) ∅ ∅.

End Memory.

(** ** Vocabulary of the statements *)

Module Vocabulary.

(** Does the JSON payload of a response carry the field name [k]? *)
Definition mentions (k : string) (r : Res) : bool :=
  match sent r with
  | Some (Json v) => has_key k v
  | _ => false
  end.

(** What the claim about failures requires of a response: status 500 and
    a body of the shape [{message}]. *)
Definition is_500_message (r : Res) : Prop :=
  statusCode r = 500 /\ exists m, sent r = Some (Json (Server.message m)).

(** What the [catch] blocks answer with, route by route; the entry for
    [/api/auth/me] only says that a JSON body goes out. *)
Definition failure_response (route : Server.Route) (r : Res) : Prop :=
  match route with
  | Server.GetMe => exists v, sent r = Some (Json v)
  | Server.GetProfile =>
      statusCode r = 500
      /\ sent r = Some (Json (VObj [("error", VStr "Failed to fetch profile")]))
  | Server.PostLogout =>
      statusCode r = 500 /\ sent r = Some (Json (VObj [("error", VStr "Logout failed")]))
  | _ => statusCode r = 500 /\ sent r = Some (Json (Server.message "Server error"))
  end.




(** A request that carries no session credential of either mode. *)
Definition no_session (req : Req) : Prop :=
  cookies req !! "token" = None /\ cookies req !! "user_email" = None /\
  headers req !! "authorization" = None /\ headers req !! "x-user-email" = None.

(** The string has no space in it. *)
Fixpoint no_space (s : string) : bool :=
  match s with
  | EmptyString => true
  | String c rest => negb (Ascii.eqb c " "%char) && no_space rest
  end.

(** The cookie options of the two kinds of session. *)
Definition token_cookie_opts : CookieOpts :=
  MkCookieOpts (Some true) (Some true) (Some "none") (Some 604800000).

Definition email_cookie_opts : CookieOpts :=
  MkCookieOpts (Some false) None (Some "lax") None.

(** The routes that never call [save]. *)
Definition reads_only (i : Server.Incoming) : Prop :=
  fst (fst i) <> Server.PostRegister.




End Vocabulary.
Import Vocabulary.

(** * Properties *)

Import Server.

(** Unfolding of the effect combinators and of the response primitives. *)
Ltac run_eff :=
  unfold run, arrival, handler, attempt, try_catch, try_finally, bind, ret, throw,
    eval, query, command, res_status, res_json, res_send, res_cookie,
    res_clearCookie, Server.console_error, Date_now, with_res in *;
  cbn [fst snd res db Server.console clock statusCode set_cookies sent] in *.

(** Case analysis on the innermost scrutinee of the goal. *)
Ltac break_innermost :=
  match goal with
  | |- context [match ?x with _ => _ end] =>
      lazymatch x with
      | context [match _ with _ => _ end] => fail
      | _ => destruct x
      end
  end.

(** ** The effect combinators *)

Lemma try_catch_bind {S A B} (m : Eff.M S A) (k : A -> Eff.M S B)
    (h : exn -> Eff.M S B) (s : S) :
  try_catch (x <- m;; k x) h s
  = match m s with
    | (Ok a, s') => try_catch (k a) h s'
    | (Throw e, s') => h e s'
    end.
Proof.
  unfold try_catch, bind. destruct (m s) as [[a|e] s']; reflexivity.
Qed.

Lemma try_finally_state {S A} (m : Eff.M S A) (f : Eff.M S unit) (g : S -> S) (s : S) :
  (forall t, f t = (Ok tt, g t)) ->
  try_finally m f s = (fst (m s), g (snd (m s))).
Proof.
  intros Hf. unfold try_finally. destruct (m s) as [r s']. rewrite Hf. reflexivity.
Qed.

(** ** Shared facts about the handlers *)

Section HandlerFacts.

Context {D : Type} {UM : UserModel D} {AM : AnalysisModel D} {BC : Bcrypt} {JW : Jwt}.
Variable cfg : Config.

(** Every handler that wraps its work in [try]/[catch] returns normally. *)
Lemma try_catch_total (m : M D unit) (label : string) (code : Z) (v : value) s :
  fst (try_catch m (fun err => Server.console_error label err;;
                               res_status code;; res_json v) s) = Ok tt.
Proof.
  run_eff. destruct (m s) as [[[]|e] s']; reflexivity.
Qed.

Lemma handlers_return (r : Route) (req : Req) (now : Z) (d : D) :
  fst (run cfg r req now d) = Ok tt.
Proof.
  destruct r; try apply try_catch_total. reflexivity.
Qed.

(** The identity lookup never writes to the response unless it answers
    401 itself, never sets a cookie and never writes to the store. *)
Lemma resolve_user_cases (req : Req) (s : St D) :
  match resolve_user cfg req s with
  | (Ok (inl _), s') =>
      s' = MkSt (MkRes 401 (set_cookies (res s))
                       (Some (Json (message "Not authenticated"))))
                (db s) (Server.console s) (clock s)
  | (Ok (inr (Some u)), s') => s' = s /\ passwordHash u = None
  | (Ok (inr None), s') => s' = s
  | (Throw _, s') => s' = s
  end.
Proof.
  unfold resolve_user. destruct (USE_JWT cfg).
  - destruct (truthy _); cbn [negb]; run_eff; [|reflexivity].
    destruct (jwt_verify _ _ _) as [decoded|e]; [|destruct s; reflexivity].
    destruct (destructurable decoded) as [[]|e]; [|destruct s; reflexivity].
    destruct (findById _ _) as [[u|]|e]; cbn; destruct s; auto.
  - destruct (truthy _); cbn [negb]; run_eff; [|reflexivity].
    destruct (findOne_email _ _) as [[u|]|e]; cbn; destruct s; auto.
Qed.

End HandlerFacts.

(** ** The handlers on concrete requests *)

Example split_bearer : split " "%char "Bearer abc.def" = ["Bearer"; "abc.def"].
Proof. reflexivity. Qed.

Example split_keeps_empty_pieces : split " "%char "Bearer " = ["Bearer"; ""].
Proof. reflexivity. Qed.

Example bearer_token_is_read :
  bearer (MkReq (VObj []) ∅ {["authorization" := "Bearer s3cret.u0"]}) = VStr "s3cret.u0".
Proof. vm_compute. reflexivity. Qed.

Example register_then_cookie_in_token_mode :
  res (snd (run (UM := Memory.user_model) (AM := Memory.analysis_model)
                (BC := Memory.bcrypt) (JW := Memory.jwt)
                Memory.token_mode PostRegister
                (Memory.post [("email", VStr "b@x.com"); ("password", VStr "p1")])
                0 Memory.one_user))
  = MkRes 200
          [SetCookie "token" (VStr "s3cret.u1")
                     (MkCookieOpts (Some true) (Some true) (Some "none") (Some 604800000))]
          (Some (Json (VObj [("user", VObj [("id", VStr "u1"); ("email", VStr "b@x.com");
                                            ("fullName", VUndefined)])]))).
Proof. vm_compute. reflexivity. Qed.

Example login_then_cookie_in_cookie_mode :
  res (snd (run (UM := Memory.user_model) (AM := Memory.analysis_model)
                (BC := Memory.bcrypt) (JW := Memory.jwt)
                Memory.cookie_mode PostLogin
                (Memory.post [("email", VStr "a@x.com"); ("password", VStr "p1")])
                0 Memory.one_user))
  = MkRes 200
          [SetCookie "user_email" (VStr "a@x.com")
                     (MkCookieOpts (Some false) None (Some "lax") None)]
          (Some (Json (VObj [("user", VObj [("id", VStr "u0"); ("email", VStr "a@x.com");
                                            ("fullName", VStr "Alice")])]))).
Proof. vm_compute. reflexivity. Qed.

Example me_with_valid_token :
  res (snd (run (UM := Memory.user_model) (AM := Memory.analysis_model)
                (BC := Memory.bcrypt) (JW := Memory.jwt)
                Memory.token_mode GetMe (Memory.get [("token", "s3cret.u0")])
                0 Memory.one_user))
  = MkRes 200 []
          (Some (Json (VObj [("user", VObj [("_id", VStr "u0"); ("fullName", VStr "Alice");
                                            ("doctorId", VStr "D-1");
                                            ("email", VStr "a@x.com");
                                            ("hospitalName", VStr "General");
                                            ("area", VStr "North")])]))).
Proof. vm_compute. reflexivity. Qed.

Example me_with_database_down :
  res (snd (run (UM := Memory.user_model) (AM := Memory.analysis_model)
                (BC := Memory.bcrypt) (JW := Memory.jwt)
                Memory.cookie_mode GetMe (Memory.get [("user_email", "a@x.com")])
                0 Memory.one_user_offline))
  = MkRes 401 [] (Some (Json (message "Invalid or expired token"))).
Proof. vm_compute. reflexivity. Qed.

Example logout_clears_both_cookies :
  res (snd (run (UM := Memory.user_model) (AM := Memory.analysis_model)
                (BC := Memory.bcrypt) (JW := Memory.jwt)
                Memory.cookie_mode PostLogout (Memory.get []) 0 Memory.one_user))
  = MkRes 200
          [ClearCookie "token" (MkCookieOpts None (Some true) (Some "none") None);
           ClearCookie "user_email" no_opts]
          (Some (Json (VObj [("ok", VBool true)]))).
Proof. vm_compute. reflexivity. Qed.

(** ** Identity-gated endpoints and rejected tokens *)

(** C1.  In token mode, when the token a request carries is rejected by
    [jwt.verify] (bad signature, malformed, expired), [/api/auth/me]
    answers 401 but [/api/profile] answers 500 with
    [{error: "Failed to fetch profile"}]: its [catch] block does not tell
    a rejected token from a server failure.  The claim's 401 holds for the
    first endpoint only. *)
Theorem rejected_token_me_401_profile_500
    {D : Type} {UM : UserModel D} {AM : AnalysisModel D} {BC : Bcrypt} {JW : Jwt}
    (cfg : Config) (req : Req) (now : Z) (d : D) (e : exn) :
  USE_JWT cfg = true ->
  let token := or_else (of_opt (cookies req !! "token")) (bearer req) in
  truthy token = true ->
  jwt_verify token (of_opt (JWT_SECRET cfg)) now = Throw e ->
  res (snd (run cfg GetMe req now d))
    = MkRes 401 [] (Some (Json (message "Invalid or expired token")))
  /\ res (snd (run cfg GetProfile req now d))
    = MkRes 500 [] (Some (Json (VObj [("error", VStr "Failed to fetch profile")]))).
Proof.
  intros Hmode token Htok Hverify.
  unfold run, handler, me, profile, me_try, profile_try, resolve_user.
  rewrite Hmode. fold token. rewrite Htok. cbn [negb].
  run_eff. rewrite Hverify. split; reflexivity.
Qed.

Lemma rejected_token_me_401_profile_500_witness :
  res (snd (run (UM := Memory.user_model) (AM := Memory.analysis_model)
                (BC := Memory.bcrypt) (JW := Memory.jwt)
                Memory.token_mode GetMe (Memory.get [("token", "garbage")]) 0 Memory.one_user))
    = MkRes 401 [] (Some (Json (message "Invalid or expired token")))
  /\ res (snd (run (UM := Memory.user_model) (AM := Memory.analysis_model)
                   (BC := Memory.bcrypt) (JW := Memory.jwt)
                   Memory.token_mode GetProfile (Memory.get [("token", "garbage")]) 0
                   Memory.one_user))
    = MkRes 500 [] (Some (Json (VObj [("error", VStr "Failed to fetch profile")]))).
Proof.
  apply (rejected_token_me_401_profile_500
           (UM := Memory.user_model) (AM := Memory.analysis_model)
           (BC := Memory.bcrypt) (JW := Memory.jwt)
           Memory.token_mode (Memory.get [("token", "garbage")]) 0 Memory.one_user
           (MkExn "JsonWebTokenError" "invalid signature")).
  - reflexivity.
  - vm_compute. reflexivity.
  - vm_compute. reflexivity.
Defined.

(** ** Login failures *)

(** When the lookup finds no user, and when it finds one and
    [bcrypt.compare] resolves to false, the response is the same,
    whatever the two requests, stores and arrival times are: status 401,
    body [{message: "Invalid credentials"}], no cookie. *)
Theorem login_failures_indistinguishable
    {D : Type} {UM : UserModel D} {AM : AnalysisModel D} {BC : Bcrypt} {JW : Jwt}
    (cfg : Config) (req1 req2 : Req) (now1 now2 : Z) (d1 d2 : D) (user : User) :
  destructurable (body req1) = Ok tt ->
  findOne_email (prop "email" (body req1)) d1 = Ok None ->
  destructurable (body req2) = Ok tt ->
  findOne_email (prop "email" (body req2)) d2 = Ok (Some user) ->
  bcrypt_compare (prop "password" (body req2)) (of_opt (passwordHash user)) = Ok false ->
  res (snd (run cfg PostLogin req1 now1 d1)) = res (snd (run cfg PostLogin req2 now2 d2))
  /\ res (snd (run cfg PostLogin req1 now1 d1))
     = MkRes 401 [] (Some (Json (message "Invalid credentials"))).
Proof.
  intros Hb1 Hnone Hb2 Hsome Hcmp.
  unfold run, handler, login, login_try. run_eff.
  rewrite Hb1, Hb2, Hnone, Hsome. cbn. rewrite Hcmp. cbn. split; reflexivity.
Qed.

Lemma login_failures_indistinguishable_witness :
  let unknown := Memory.post [("email", VStr "nobody@x.com"); ("password", VStr "p1")] in
  let wrong := Memory.post [("email", VStr "a@x.com"); ("password", VStr "wrong")] in
  res (snd (run (UM := Memory.user_model) (AM := Memory.analysis_model)
                (BC := Memory.bcrypt) (JW := Memory.jwt)
                Memory.token_mode PostLogin unknown 0 Memory.one_user))
  = res (snd (run (UM := Memory.user_model) (AM := Memory.analysis_model)
                  (BC := Memory.bcrypt) (JW := Memory.jwt)
                  Memory.token_mode PostLogin wrong 5 Memory.one_user))
  /\ res (snd (run (UM := Memory.user_model) (AM := Memory.analysis_model)
                   (BC := Memory.bcrypt) (JW := Memory.jwt)
                   Memory.token_mode PostLogin unknown 0 Memory.one_user))
     = MkRes 401 [] (Some (Json (message "Invalid credentials"))).
Proof.
  apply (login_failures_indistinguishable
           (UM := Memory.user_model) (AM := Memory.analysis_model)
           (BC := Memory.bcrypt) (JW := Memory.jwt)
           Memory.token_mode
           (Memory.post [("email", VStr "nobody@x.com"); ("password", VStr "p1")])
           (Memory.post [("email", VStr "a@x.com"); ("password", VStr "wrong")])
           0 5 Memory.one_user Memory.one_user Memory.alice);
    vm_compute; reflexivity.
Defined.

(** C2.  The two failure causes can be told apart when the password
    cannot be compared at all.  For a registered email, a password on
    which [bcrypt.compare] rejects (a missing one, or one that is not a
    string) does not verify either, but the rejection lands in the
    [catch] block: the answer is 500 [{message: "Server error"}], while
    the same login for an email nobody has is answered 401
    [{message: "Invalid credentials"}].  The login handler has no
    required-fields check of the kind the register handler starts with. *)
Theorem login_compare_rejection_distinguishes
    {D : Type} {UM : UserModel D} {AM : AnalysisModel D} {BC : Bcrypt} {JW : Jwt}
    (cfg : Config) (req1 req2 : Req) (now1 now2 : Z) (d1 d2 : D) (user : User) (e : exn) :
  destructurable (body req1) = Ok tt ->
  findOne_email (prop "email" (body req1)) d1 = Ok None ->
  destructurable (body req2) = Ok tt ->
  findOne_email (prop "email" (body req2)) d2 = Ok (Some user) ->
  bcrypt_compare (prop "password" (body req2)) (of_opt (passwordHash user)) = Throw e ->
  res (snd (run cfg PostLogin req1 now1 d1))
    = MkRes 401 [] (Some (Json (message "Invalid credentials")))
  /\ res (snd (run cfg PostLogin req2 now2 d2))
     = MkRes 500 [] (Some (Json (message "Server error")))
  /\ res (snd (run cfg PostLogin req1 now1 d1)) <> res (snd (run cfg PostLogin req2 now2 d2)).
Proof.
  intros Hb1 Hnone Hb2 Hsome Hcmp.
  unfold run, handler, login, login_try. run_eff.
  rewrite Hb1, Hb2. cbn [db]. rewrite Hnone, Hsome. cbn. rewrite Hcmp. cbn.
  repeat split; try reflexivity. discriminate.
Qed.

Lemma login_compare_rejection_distinguishes_witness :
  let unknown := Memory.post [("email", VStr "nobody@x.com")] in
  let known := Memory.post [("email", VStr "a@x.com")] in
  res (snd (run (UM := Memory.user_model) (AM := Memory.analysis_model)
                (BC := Memory.bcrypt) (JW := Memory.jwt)
                Memory.token_mode PostLogin unknown 0 Memory.one_user))
    = MkRes 401 [] (Some (Json (message "Invalid credentials")))
  /\ res (snd (run (UM := Memory.user_model) (AM := Memory.analysis_model)
                   (BC := Memory.bcrypt) (JW := Memory.jwt)
                   Memory.token_mode PostLogin known 0 Memory.one_user))
     = MkRes 500 [] (Some (Json (message "Server error")))
  /\ res (snd (run (UM := Memory.user_model) (AM := Memory.analysis_model)
                   (BC := Memory.bcrypt) (JW := Memory.jwt)
                   Memory.token_mode PostLogin unknown 0 Memory.one_user))
     <> res (snd (run (UM := Memory.user_model) (AM := Memory.analysis_model)
                      (BC := Memory.bcrypt) (JW := Memory.jwt)
                      Memory.token_mode PostLogin known 0 Memory.one_user)).
Proof.
  apply (login_compare_rejection_distinguishes
           (UM := Memory.user_model) (AM := Memory.analysis_model)
           (BC := Memory.bcrypt) (JW := Memory.jwt)
           Memory.token_mode
           (Memory.post [("email", VStr "nobody@x.com")])
           (Memory.post [("email", VStr "a@x.com")])
           0 0 Memory.one_user Memory.one_user Memory.alice
           (MkExn "Error" "data and hash arguments required"));
    vm_compute; reflexivity.
Defined.

(** ** Registration with an email that is already taken *)

(** C3, the claim as stated fails on a request that leaves the password
    out: the required-fields check comes before the lookup, so the
    answer is 400 although the email is that of a persisted user. *)
Lemma register_duplicate_without_password_is_400 :
  let req := Memory.post [("email", VStr "a@x.com")] in
  email Memory.alice = Some "a@x.com"
  /\ In Memory.alice (Memory.users Memory.one_user)
  /\ res (snd (run (UM := Memory.user_model) (AM := Memory.analysis_model)
                   (BC := Memory.bcrypt) (JW := Memory.jwt)
                   Memory.cookie_mode PostRegister req 0 Memory.one_user))
     = MkRes 400 [] (Some (Json (message "Email and password are required")))
  /\ statusCode (res (snd (run (UM := Memory.user_model) (AM := Memory.analysis_model)
                               (BC := Memory.bcrypt) (JW := Memory.jwt)
                               Memory.cookie_mode PostRegister req 0 Memory.one_user)))
     <> 409.
Proof.
  cbn zeta. split; [reflexivity|]. split; [left; reflexivity|].
  split; [vm_compute; reflexivity|]. vm_compute. discriminate.
Qed.

(** C3, amended.  For every registration request that passes the
    required-fields check (email and password both present and non-empty)
    and whose email is found by the lookup [User.findOne({ email })], the
    server answers 409 with [{message: "User already exists"}], sets no
    cookie, and leaves the store as it was. *)
Theorem register_duplicate_conflict
    {D : Type} {UM : UserModel D} {AM : AnalysisModel D} {BC : Bcrypt} {JW : Jwt}
    (cfg : Config) (req : Req) (now : Z) (d : D) (existing : User) :
  destructurable (body req) = Ok tt ->
  truthy (prop "email" (body req)) = true ->
  truthy (prop "password" (body req)) = true ->
  findOne_email (prop "email" (body req)) d = Ok (Some existing) ->
  res (snd (run cfg PostRegister req now d))
    = MkRes 409 [] (Some (Json (message "User already exists")))
  /\ db (snd (run cfg PostRegister req now d)) = d.
Proof.
  intros Hb He Hp Hfound.
  unfold run, handler, register, register_try. run_eff.
  rewrite Hb, He, Hp. cbn. rewrite Hfound. cbn. split; reflexivity.
Qed.

(** On the in-memory store the lookup is the exact match on the email:
    registering with the email of any stored user, with a password, is
    answered 409 and the collection is what it was. *)
Lemma find_present {A} (f : A -> bool) (l : list A) (x : A) :
  In x l -> f x = true -> exists y, List.find f l = Some y.
Proof.
  induction l as [|a l IH]; intros Hin Hf; [destruct Hin|].
  cbn. destruct (f a) eqn:Ha; [eauto|].
  destruct Hin as [->|Hin]; [congruence|auto].
Qed.

Lemma register_duplicate_in_memory
    (cfg : Config) (d : Memory.Db) (u : User) (e p : string)
    (others : list (string * value)) (now : Z) :
  Memory.online d = true ->
  In u (Memory.users d) ->
  email u = Some e ->
  e <> "" ->
  p <> "" ->
  let req := Memory.post (("email", VStr e) :: ("password", VStr p) :: others) in
  res (snd (run (UM := Memory.user_model) (AM := Memory.analysis_model)
                (BC := Memory.bcrypt) (JW := Memory.jwt) cfg PostRegister req now d))
    = MkRes 409 [] (Some (Json (message "User already exists")))
  /\ Memory.users
       (db (snd (run (UM := Memory.user_model) (AM := Memory.analysis_model)
                     (BC := Memory.bcrypt) (JW := Memory.jwt) cfg PostRegister req now d)))
     = Memory.users d.
Proof.
  intros Hon Hin He Hne Hp req.
  destruct (find_present (fun v => Memory.opt_eqb (email v) (VStr e)) (Memory.users d) u Hin)
    as [y Hy].
  { rewrite He. cbn. apply String.eqb_refl. }
  assert (Hfound : findOne_email (UserModel := Memory.user_model) (VStr e) d = Ok (Some y)).
  { cbn. unfold Memory.guarded. rewrite Hon. cbn in Hy. rewrite Hy. reflexivity. }
  assert (He' : truthy (VStr e) = true) by (cbn; apply negb_true_iff, String.eqb_neq, Hne).
  assert (Hp' : truthy (VStr p) = true) by (cbn; apply negb_true_iff, String.eqb_neq, Hp).
  unfold run, handler, register, register_try. run_eff.
  change (prop "email" (body req)) with (VStr e).
  change (prop "password" (body req)) with (VStr p).
  rewrite He', Hp'. cbn [destructurable body req Memory.post negb orb db].
  rewrite Hfound. split; reflexivity.
Qed.

Lemma register_duplicate_conflict_witness :
  let req := Memory.post [("email", VStr "a@x.com"); ("password", VStr "p2")] in
  res (snd (run (UM := Memory.user_model) (AM := Memory.analysis_model)
                (BC := Memory.bcrypt) (JW := Memory.jwt)
                Memory.cookie_mode PostRegister req 0 Memory.one_user))
    = MkRes 409 [] (Some (Json (message "User already exists")))
  /\ db (snd (run (UM := Memory.user_model) (AM := Memory.analysis_model)
                  (BC := Memory.bcrypt) (JW := Memory.jwt)
                  Memory.cookie_mode PostRegister req 0 Memory.one_user))
     = Memory.one_user.
Proof.
  apply (register_duplicate_conflict
           (UM := Memory.user_model) (AM := Memory.analysis_model)
           (BC := Memory.bcrypt) (JW := Memory.jwt)
           Memory.cookie_mode
           (Memory.post [("email", VStr "a@x.com"); ("password", VStr "p2")])
           0 Memory.one_user Memory.alice);
    vm_compute; reflexivity.
Defined.

(** ** The password hash never leaves the server through identity lookups *)

Lemma has_key_field_default (k : string) (o : option string) :
  has_key k (or_else (of_opt o) (VStr "")) = false.
Proof.
  destruct o as [s|]; unfold or_else; cbn; [destruct (negb _)|]; reflexivity.
Qed.

(** A document serialises its password hash exactly when it has one: the
    projection is what keeps the field out. *)
Lemma toJSON_passwordHash (u : User) :
  has_key "passwordHash" (toJSON u) = bool_decide (passwordHash u <> None).
Proof.
  destruct u as [i [f|] [di|] [e|] [ph|] [h|] [a|] [pp|]]; reflexivity.
Qed.

(** C4.  Whatever the request, the mode, the store and the primitives,
    the JSON body that [/api/auth/me] and [/api/profile] send, for a
    successful response as for any other, has no field named
    [passwordHash] at any depth. *)
Theorem identity_responses_omit_passwordHash
    {D : Type} {UM : UserModel D} {AM : AnalysisModel D} {BC : Bcrypt} {JW : Jwt}
    (cfg : Config) (req : Req) (now : Z) (d : D) :
  mentions "passwordHash" (res (snd (run cfg GetMe req now d))) = false
  /\ mentions "passwordHash" (res (snd (run cfg GetProfile req now d))) = false.
Proof.
  pose proof (resolve_user_cases cfg req (arrival now d)) as Hr.
  unfold run, handler, me, me_try, profile, profile_try.
  rewrite !try_catch_bind.
  destruct (resolve_user cfg req (arrival now d)) as [[[[]|[u|]]|e] s'].
  - subst s'. split; reflexivity.
  - destruct Hr as [-> Hnone]. split.
    + unfold mentions. run_eff. cbn [has_key existsb].
      change (has_key "passwordHash" (toJSON u) || false = false).
      rewrite toJSON_passwordHash, Hnone. reflexivity.
    + unfold mentions. run_eff. cbn [has_key existsb].
      rewrite !has_key_field_default. reflexivity.
  - subst s'. split; reflexivity.
  - subst s'. split; reflexivity.
Qed.

(** ** Failures at the endpoint boundary *)

(** C5, the claim as stated fails on [/api/profile]: with the database
    unreachable the lookup rejects, and the [catch] block answers 500
    with a body keyed [error], not [message]. *)
Lemma profile_failure_body_is_not_message :
  let req := Memory.get [("user_email", "a@x.com")] in
  fst (attempt (UM := Memory.user_model) (AM := Memory.analysis_model)
               (BC := Memory.bcrypt) (JW := Memory.jwt)
               Memory.cookie_mode GetProfile req (arrival 0 Memory.one_user_offline))
    = Throw Memory.unreachable_error
  /\ res (snd (run (UM := Memory.user_model) (AM := Memory.analysis_model)
                   (BC := Memory.bcrypt) (JW := Memory.jwt)
                   Memory.cookie_mode GetProfile req 0 Memory.one_user_offline))
     = MkRes 500 [] (Some (Json (VObj [("error", VStr "Failed to fetch profile")])))
  /\ ~ is_500_message
         (res (snd (run (UM := Memory.user_model) (AM := Memory.analysis_model)
                        (BC := Memory.bcrypt) (JW := Memory.jwt)
                        Memory.cookie_mode GetProfile req 0 Memory.one_user_offline))).
Proof.
  cbn zeta. split; [vm_compute; reflexivity|]. split; [vm_compute; reflexivity|].
  intros [_ [m Hm]]. vm_compute in Hm. discriminate.
Qed.

(** C5, amended.  Whenever the [try] block of a handler throws (a
    rejected query or write, a throwing primitive, a TypeError), the
    handler itself still returns normally: the exception is logged and a
    JSON body is sent.  For register, login, category-counts and history
    the answer is 500 with [{message: "Server error"}]; for
    [/api/profile] and logout it is 500 with a body keyed [error].  The
    status [/api/auth/me] gives is not part of the statement. *)
Theorem failures_caught_at_boundary
    {D : Type} {UM : UserModel D} {AM : AnalysisModel D} {BC : Bcrypt} {JW : Jwt}
    (cfg : Config) (route : Route) (req : Req) (now : Z) (d : D) (e : exn) (s' : St D) :
  attempt cfg route req (arrival now d) = (Throw e, s') ->
  fst (run cfg route req now d) = Ok tt
  /\ (exists label : string,
        Server.console (snd (run cfg route req now d))
        = (Server.console s' ++ [(label, e)])%list)
  /\ (exists v, sent (res (snd (run cfg route req now d))) = Some (Json v))
  /\ failure_response route (res (snd (run cfg route req now d))).
Proof.
  intros Hthrow. split; [apply handlers_return|].
  unfold run, handler.
  destruct route; cbn [attempt] in Hthrow;
    try (unfold register, login, me, logout, profile, category_counts, history;
         unfold try_catch at 1 2 3; rewrite Hthrow; run_eff;
         cbn [failure_response statusCode sent]; eauto 6).
  discriminate Hthrow.
Qed.

Lemma failures_caught_at_boundary_witness :
  let req := Memory.post [("email", VStr "a@x.com"); ("password", VStr "p1")] in
  let out := run (UM := Memory.user_model) (AM := Memory.analysis_model)
                 (BC := Memory.bcrypt) (JW := Memory.jwt)
                 Memory.token_mode PostLogin req 0 Memory.one_user_offline in
  fst out = Ok tt
  /\ (exists label : string,
        Server.console (snd out) = ([] ++ [(label, Memory.unreachable_error)])%list)
  /\ (exists v, sent (res (snd out)) = Some (Json v))
  /\ failure_response PostLogin (res (snd out)).
Proof.
  apply (failures_caught_at_boundary
           (UM := Memory.user_model) (AM := Memory.analysis_model)
           (BC := Memory.bcrypt) (JW := Memory.jwt)
           Memory.token_mode PostLogin
           (Memory.post [("email", VStr "a@x.com"); ("password", VStr "p1")])
           0 Memory.one_user_offline Memory.unreachable_error
           (arrival 0 Memory.one_user_offline)).
  vm_compute. reflexivity.
Defined.

(** ** The operating mode *)


Section Mode.

Context {D : Type} {UM : UserModel D} {AM : AnalysisModel D} {BC : Bcrypt} {JW : Jwt}.











End Mode.



(** ** The client session store *)

Import Client.

Ltac run_client :=
  unfold checkAuthStatus, Client.logout, try_catch, try_finally, bind, ret, eval,
    setUser, setLoading, setIsAuthenticated, navigate, toast, Client.console_error in *;
  cbn [fst snd user loading isAuthenticated location toasts Client.console] in *.

(** Without a credential of either mode, [/api/auth/me] answers 401
    before it consults anything else. *)
Lemma me_without_session
    {D : Type} {UM : UserModel D} {AM : AnalysisModel D} {BC : Bcrypt} {JW : Jwt}
    (cfg : Config) (req : Req) (now : Z) (d : D) :
  no_session req ->
  res (snd (run cfg GetMe req now d))
  = MkRes 401 [] (Some (Json (message "Not authenticated"))).
Proof.
  intros (Ht & Hu & Ha & Hx).
  unfold run, handler, me, me_try, resolve_user, bearer.
  rewrite Ht, Hu, Ha, Hx. destruct (USE_JWT cfg); reflexivity.
Qed.

(** [checkAuthStatus] always settles, and settles with the loading flag
    cleared. *)
Lemma checkAuthStatus_settles {NET : Network} (apiBase : string) (s : Store) :
  fst (checkAuthStatus apiBase s) = Ok tt
  /\ loading (snd (checkAuthStatus apiBase s)) = false.
Proof.
  run_client. repeat (break_innermost; cbn); split; reflexivity.
Qed.

(** C7.  When the browser holds no session (no credential of either
    mode goes out with the request) and the network delivers the
    server's answer, the first [checkAuthStatus] takes the store from its
    initial state to: user absent, not authenticated, not loading.  And
    whatever the network does, from any state, [checkAuthStatus] returns
    normally with the loading flag cleared, transport failure included. *)
Theorem check_status_without_session
    {D : Type} {UM : UserModel D} {AM : AnalysisModel D} {BC : Bcrypt} {JW : Jwt}
    {NET : Network}
    (cfg : Config) (d : D) (now : Z) (req : Req) (apiBase path : string) :
  no_session req ->
  fetch (apiBase ++ "/api/auth/me")
        (MkInit "GET" [("Content-Type", "application/json")] "include" None)
  = Ok (Wire.deliver (res (snd (run cfg GetMe req now d)))) ->
  checkAuthStatus apiBase (initial path)
  = (Ok tt, MkStore VNull false false path [] [])
  /\ (forall (NET' : Network) (s : Store),
        fst (checkAuthStatus (NET := NET') apiBase s) = Ok tt
        /\ loading (snd (checkAuthStatus (NET := NET') apiBase s)) = false).
Proof.
  intros Hnone Hfetch. split; [|intros; apply checkAuthStatus_settles].
  rewrite (me_without_session cfg req now d Hnone) in Hfetch.
  run_client. rewrite Hfetch. reflexivity.
Qed.

Lemma check_status_without_session_witness :
  checkAuthStatus
    (NET := Wire.loopback (UM := Memory.user_model) (AM := Memory.analysis_model)
                          (BC := Memory.bcrypt) (JW := Memory.jwt)
                          Memory.token_mode Memory.one_user 0 ∅ "http://localhost:5000")
    "http://localhost:5000" (initial "/")
  = (Ok tt, MkStore VNull false false "/" [] [])
  /\ (forall (NET' : Network) (s : Store),
        fst (checkAuthStatus (NET := NET') "http://localhost:5000" s) = Ok tt
        /\ loading (snd (checkAuthStatus (NET := NET') "http://localhost:5000" s)) = false).
Proof.
  apply (check_status_without_session
           (UM := Memory.user_model) (AM := Memory.analysis_model)
           (BC := Memory.bcrypt) (JW := Memory.jwt)
           (NET := Wire.loopback (UM := Memory.user_model) (AM := Memory.analysis_model)
                                 (BC := Memory.bcrypt) (JW := Memory.jwt)
                                 Memory.token_mode Memory.one_user 0 ∅
                                 "http://localhost:5000")
           Memory.token_mode Memory.one_user 0
           (Wire.outgoing ∅ (MkInit "GET" [("Content-Type", "application/json")]
                                    "include" None))
           "http://localhost:5000" "/").
  - repeat split; vm_compute; reflexivity.
  - vm_compute. reflexivity.
Defined.

(** C8.  Whatever the logout request does (answers, answers with an
    error status, or fails in transport), [logout] returns normally with
    the user absent and the authenticated flag false, the router at
    [/login], and the "Logged out" toast emitted; a transport failure only
    adds a line to the console. *)
Theorem logout_always_clears {NET : Network} (apiBase : string) (s : Store) :
  let outcome := fetch (apiBase ++ "/api/auth/logout") (MkInit "POST" [] "include" None) in
  Client.logout apiBase s
  = (Ok tt,
     MkStore VNull (loading s) false "/login"
             (toasts s ++ [MkToast "Logged out" "You have been successfully logged out" None])
             match outcome with
             | Ok _ => Client.console s
             | Throw e => Client.console s ++ [("Logout error:", e)]
             end).
Proof.
  run_client. destruct (fetch _ _) as [r|e]; reflexivity.
Qed.

(** C9.  When the [/api/auth/me] request settles with a status that is
    neither in 200-299 nor 401 nor 403, [checkAuthStatus] clears the
    loading flag and changes nothing else: user and authenticated flag
    keep the values they had. *)
Theorem check_status_other_status_frame
    {NET : Network} (apiBase : string) (s : Store) (r : Response) :
  fetch (apiBase ++ "/api/auth/me")
        (MkInit "GET" [("Content-Type", "application/json")] "include" None) = Ok r ->
  ok r = false ->
  status r <> 401 ->
  status r <> 403 ->
  checkAuthStatus apiBase s
  = (Ok tt,
     MkStore (user s) false (isAuthenticated s) (location s) (toasts s) (Client.console s)).
Proof.
  intros Hfetch Hok H401 H403. run_client. rewrite Hfetch, Hok.
  apply Z.eqb_neq in H401, H403. rewrite H401, H403. reflexivity.
Qed.

Lemma check_status_other_status_frame_witness :
  let s := MkStore (VObj [("email", VStr "a@x.com")]) true true "/dashboard" [] [] in
  checkAuthStatus (NET := Wire.answering (MkResponse 500 (Ok (Server.message "Server error"))))
                  "http://localhost:5000" s
  = (Ok tt, MkStore (VObj [("email", VStr "a@x.com")]) false true "/dashboard" [] []).
Proof.
  apply (check_status_other_status_frame
           (NET := Wire.answering (MkResponse 500 (Ok (Server.message "Server error"))))
           "http://localhost:5000"
           (MkStore (VObj [("email", VStr "a@x.com")]) true true "/dashboard" [] [])
           (MkResponse 500 (Ok (Server.message "Server error")))).
  - reflexivity.
  - reflexivity.
  - discriminate.
  - discriminate.
Defined.

(** The other branches of [checkAuthStatus]: a transport failure, a 401
    or 403, and a 2xx answer without a user all end with the user absent
    and the authenticated flag false. *)
Lemma check_status_reset_cases {NET : Network} (apiBase : string) (s : Store) :
  let outcome := fetch (apiBase ++ "/api/auth/me")
                       (MkInit "GET" [("Content-Type", "application/json")] "include" None) in
  let s' := snd (checkAuthStatus apiBase s) in
  match outcome with
  | Throw _ => user s' = VNull /\ isAuthenticated s' = false
  | Ok r =>
      if ok r then
        match json r with
        | Ok data =>
            if truthy (prop "user" data)
            then user s' = prop "user" data /\ isAuthenticated s' = true
            else user s' = VNull /\ isAuthenticated s' = false
        | Throw _ => user s' = VNull /\ isAuthenticated s' = false
        end
      else if (status r =? 401)%Z || (status r =? 403)%Z
           then user s' = VNull /\ isAuthenticated s' = false
           else user s' = user s /\ isAuthenticated s' = isAuthenticated s
  end.
Proof.
  cbn zeta. run_client. destruct (fetch _ _) as [r|e]; [|split; reflexivity].
  destruct (ok r).
  - destruct (json r) as [data|e]; [|split; reflexivity].
    destruct data; cbn; try (split; reflexivity).
    destruct (truthy _); split; reflexivity.
  - destruct (_ || _); split; reflexivity.
Qed.

(** C10.  Outside every [AuthProvider] the context is the default
    [undefined] and [useAuth] throws
    [Error("useAuth must be used within an AuthProvider")]; under a
    provider it returns that provider's object; and it throws in no other
    situation than an absent context value. *)
Theorem useAuth_outside_and_inside :
  useAuth [] = Throw (MkExn "Error" "useAuth must be used within an AuthProvider")
  /\ (forall (apiBase : string) (s : Store) (enclosing : list AuthValue),
        useAuth (provided apiBase s :: enclosing) = Ok (CtxObject (provided apiBase s)))
  /\ (forall providers : list AuthValue,
        (exists e, useAuth providers = Throw e) <-> useContext providers = CtxUndefined).
Proof.
  split; [reflexivity|]. split; [reflexivity|].
  intros [|v rest]; cbn; split.
  - reflexivity.
  - eauto.
  - intros [e He]. discriminate.
  - discriminate.
Qed.

(** * Further properties of the server *)

(** ** Registration *)

(** Registration without an email or without a password (missing, null,
    empty, zero or false) is answered 400 before anything else is
    consulted: no lookup, no write, no cookie, no log line. *)
Theorem register_required_fields_first
    {D : Type} {UM : UserModel D} {AM : AnalysisModel D} {BC : Bcrypt} {JW : Jwt}
    (cfg : Config) (req : Req) (now : Z) (d : D) :
  destructurable (body req) = Ok tt ->
  truthy (prop "email" (body req)) = false \/ truthy (prop "password" (body req)) = false ->
  run cfg PostRegister req now d
  = (Ok tt,
     MkSt (MkRes 400 [] (Some (Json (message "Email and password are required"))))
          d [] now).
Proof.
  intros Hb Hmissing. unfold run, handler, Server.register, register_try. run_eff.
  rewrite Hb.
  destruct Hmissing as [-> | ->]; cbn [negb orb]; [|rewrite orb_true_r]; reflexivity.
Qed.

Lemma register_required_fields_first_witness :
  run (UM := Memory.user_model) (AM := Memory.analysis_model)
      (BC := Memory.bcrypt) (JW := Memory.jwt)
      Memory.token_mode PostRegister
      (Memory.post [("email", VStr ""); ("password", VStr "p1")]) 7 Memory.one_user_offline
  = (Ok tt,
     MkSt (MkRes 400 [] (Some (Json (message "Email and password are required"))))
          Memory.one_user_offline [] 7).
Proof.
  apply (register_required_fields_first
           (UM := Memory.user_model) (AM := Memory.analysis_model)
           (BC := Memory.bcrypt) (JW := Memory.jwt)
           Memory.token_mode
           (Memory.post [("email", VStr ""); ("password", VStr "p1")])
           7 Memory.one_user_offline).
  - reflexivity.
  - left. reflexivity.
Defined.

(** A registration that passes every step answers 200 with the summary
    of the document it saved, leaves the store as [save] left it, and
    sets exactly one cookie: in token mode [token], holding what
    [jwt.sign] returned for [{id, email}], http-only, secure, same-site
    none, for 604800000 ms (seven days); in cookie mode [user_email],
    holding the saved email, readable by scripts, same-site lax, with no
    expiry. *)
Theorem register_success
    {D : Type} {UM : UserModel D} {AM : AnalysisModel D} {BC : Bcrypt} {JW : Jwt}
    (cfg : Config) (req : Req) (now : Z) (d d' : D) (hashed token : string) :
  let b := body req in
  let user := new_User (MkUserInput (prop "fullName" b) (prop "doctorId" b)
                                    (prop "email" b) hashed
                                    (prop "hospitalName" b) (prop "area" b)) d in
  destructurable b = Ok tt ->
  truthy (prop "email" b) = true ->
  truthy (prop "password" b) = true ->
  findOne_email (prop "email" b) d = Ok None ->
  bcrypt_hash (prop "password" b) 10 = Ok hashed ->
  save user d = (Ok tt, d') ->
  (USE_JWT cfg = true ->
   jwt_sign (VObj [("id", VStr (_id user)); ("email", of_opt (email user))])
            (of_opt (JWT_SECRET cfg)) "7d" now = Ok token) ->
  run cfg PostRegister req now d
  = (Ok tt,
     MkSt (MkRes 200
                 [if USE_JWT cfg
                  then SetCookie "token" (VStr token) token_cookie_opts
                  else SetCookie "user_email" (of_opt (email user)) email_cookie_opts]
                 (Some (Json (user_summary user))))
          d' [] now).
Proof.
  intros b user Hb He Hp Hnone Hhash Hsave Hsign. subst user b.
  unfold run, handler, Server.register, register_try, issue_session. run_eff.
  rewrite Hb, He, Hp. cbn [negb orb db]. rewrite Hnone, Hhash.
  cbn [db]. rewrite Hsave. cbn [fst snd res db Server.console clock].
  destruct (USE_JWT cfg).
  - cbn [clock]. rewrite (Hsign eq_refl). reflexivity.
  - reflexivity.
Qed.

Lemma register_success_witness :
  run (UM := Memory.user_model) (AM := Memory.analysis_model)
      (BC := Memory.bcrypt) (JW := Memory.jwt)
      Memory.token_mode PostRegister
      (Memory.post [("email", VStr "b@x.com"); ("password", VStr "p2");
                    ("fullName", VStr "Bob")]) 3 Memory.one_user
  = (Ok tt,
     MkSt (MkRes 200
                 [SetCookie "token" (VStr "s3cret.u1") token_cookie_opts]
                 (Some (Json (VObj [("user", VObj [("id", VStr "u1");
                                                   ("email", VStr "b@x.com");
                                                   ("fullName", VStr "Bob")])]))))
          (Memory.MkDb [Memory.alice;
                        MkUser "u1" (Some "Bob") None (Some "b@x.com")
                               (Some "$2b$10$p2") None None None] true)
          [] 3).
Proof.
  apply (register_success
           (UM := Memory.user_model) (AM := Memory.analysis_model)
           (BC := Memory.bcrypt) (JW := Memory.jwt)
           Memory.token_mode
           (Memory.post [("email", VStr "b@x.com"); ("password", VStr "p2");
                         ("fullName", VStr "Bob")])
           3 Memory.one_user
           (Memory.MkDb [Memory.alice;
                         MkUser "u1" (Some "Bob") None (Some "b@x.com")
                                (Some "$2b$10$p2") None None None] true)
           "$2b$10$p2" "s3cret.u1");
    try (intros _); vm_compute; reflexivity.
Defined.

(** Registration is not atomic: in token mode, when [save] has succeeded
    and [jwt.sign] then throws, the answer is 500 with no cookie, and the
    new user stays in the store. *)
Theorem register_persists_before_signing
    {D : Type} {UM : UserModel D} {AM : AnalysisModel D} {BC : Bcrypt} {JW : Jwt}
    (cfg : Config) (req : Req) (now : Z) (d d' : D) (hashed : string) (e : exn) :
  let b := body req in
  let user := new_User (MkUserInput (prop "fullName" b) (prop "doctorId" b)
                                    (prop "email" b) hashed
                                    (prop "hospitalName" b) (prop "area" b)) d in
  USE_JWT cfg = true ->
  destructurable b = Ok tt ->
  truthy (prop "email" b) = true ->
  truthy (prop "password" b) = true ->
  findOne_email (prop "email" b) d = Ok None ->
  bcrypt_hash (prop "password" b) 10 = Ok hashed ->
  save user d = (Ok tt, d') ->
  jwt_sign (VObj [("id", VStr (_id user)); ("email", of_opt (email user))])
           (of_opt (JWT_SECRET cfg)) "7d" now = Throw e ->
  run cfg PostRegister req now d
  = (Ok tt,
     MkSt (MkRes 500 [] (Some (Json (message "Server error"))))
          d' [("Register error:", e)] now).
Proof.
  intros b user Hmode Hb He Hp Hnone Hhash Hsave Hsign. subst user b.
  unfold run, handler, Server.register, register_try, issue_session. run_eff.
  rewrite Hb, He, Hp. cbn [negb orb db]. rewrite Hnone, Hhash.
  cbn [db]. rewrite Hsave, Hmode. cbn [fst snd res db Server.console clock].
  rewrite Hsign. reflexivity.
Qed.

Lemma register_persists_before_signing_witness :
  run (UM := Memory.user_model) (AM := Memory.analysis_model)
      (BC := Memory.bcrypt) (JW := Memory.failing_jwt)
      Memory.token_mode PostRegister
      (Memory.post [("email", VStr "b@x.com"); ("password", VStr "p2")]) 3 Memory.one_user
  = (Ok tt,
     MkSt (MkRes 500 [] (Some (Json (message "Server error"))))
          (Memory.MkDb [Memory.alice;
                        MkUser "u1" None None (Some "b@x.com")
                               (Some "$2b$10$p2") None None None] true)
          [("Register error:", MkExn "Error" "secretOrPrivateKey is not valid key material")]
          3).
Proof.
  apply (register_persists_before_signing
           (UM := Memory.user_model) (AM := Memory.analysis_model)
           (BC := Memory.bcrypt) (JW := Memory.failing_jwt)
           Memory.token_mode
           (Memory.post [("email", VStr "b@x.com"); ("password", VStr "p2")])
           3 Memory.one_user
           (Memory.MkDb [Memory.alice;
                         MkUser "u1" None None (Some "b@x.com")
                                (Some "$2b$10$p2") None None None] true)
           "$2b$10$p2"
           (MkExn "Error" "secretOrPrivateKey is not valid key material"));
    vm_compute; reflexivity.
Defined.

(** ** Login *)

(** A login whose lookup finds a user and whose password verifies
    answers 200 with that user's summary, writes nothing, and sets the
    one session cookie of the active mode, with the same attributes as
    registration does. *)
Theorem login_success
    {D : Type} {UM : UserModel D} {AM : AnalysisModel D} {BC : Bcrypt} {JW : Jwt}
    (cfg : Config) (req : Req) (now : Z) (d : D) (user : User) (token : string) :
  destructurable (body req) = Ok tt ->
  findOne_email (prop "email" (body req)) d = Ok (Some user) ->
  bcrypt_compare (prop "password" (body req)) (of_opt (passwordHash user)) = Ok true ->
  (USE_JWT cfg = true ->
   jwt_sign (VObj [("id", VStr (_id user)); ("email", of_opt (email user))])
            (of_opt (JWT_SECRET cfg)) "7d" now = Ok token) ->
  run cfg PostLogin req now d
  = (Ok tt,
     MkSt (MkRes 200
                 [if USE_JWT cfg
                  then SetCookie "token" (VStr token) token_cookie_opts
                  else SetCookie "user_email" (of_opt (email user)) email_cookie_opts]
                 (Some (Json (user_summary user))))
          d [] now).
Proof.
  intros Hb Hfound Hcmp Hsign.
  unfold run, handler, Server.login, login_try, issue_session. run_eff.
  rewrite Hb. cbn [db]. rewrite Hfound, Hcmp. cbn [negb].
  destruct (USE_JWT cfg).
  - cbn [clock]. rewrite (Hsign eq_refl). reflexivity.
  - reflexivity.
Qed.

Lemma login_success_witness :
  run (UM := Memory.user_model) (AM := Memory.analysis_model)
      (BC := Memory.bcrypt) (JW := Memory.jwt)
      Memory.cookie_mode PostLogin
      (Memory.post [("email", VStr "a@x.com"); ("password", VStr "p1")]) 3 Memory.one_user
  = (Ok tt,
     MkSt (MkRes 200
                 [SetCookie "user_email" (VStr "a@x.com") email_cookie_opts]
                 (Some (Json (user_summary Memory.alice))))
          Memory.one_user [] 3).
Proof.
  apply (login_success
           (UM := Memory.user_model) (AM := Memory.analysis_model)
           (BC := Memory.bcrypt) (JW := Memory.jwt)
           Memory.cookie_mode
           (Memory.post [("email", VStr "a@x.com"); ("password", VStr "p1")])
           3 Memory.one_user Memory.alice "");
    try (intros Hmode; discriminate Hmode); vm_compute; reflexivity.
Defined.

(** Register, then use the account.  Provided the store returns what was
    saved and [bcrypt.compare] accepts the password against the hash
    [bcrypt.hash] made of it, once a registration has gone through in
    cookie mode, a second registration with the same body is answered
    409 and changes nothing, and a login with the same body is answered
    200 with the summary and the cookie the registration gave. *)
Theorem register_then_conflict_and_login
    {D : Type} {UM : UserModel D} {AM : AnalysisModel D} {BC : Bcrypt} {JW : Jwt}
    (cfg : Config) (req : Req) (now later : Z) (d d' : D) (hashed : string) :
  let b := body req in
  let user := new_User (MkUserInput (prop "fullName" b) (prop "doctorId" b)
                                    (prop "email" b) hashed
                                    (prop "hospitalName" b) (prop "area" b)) d in
  USE_JWT cfg = false ->
  destructurable b = Ok tt ->
  truthy (prop "email" b) = true ->
  truthy (prop "password" b) = true ->
  findOne_email (prop "email" b) d = Ok None ->
  bcrypt_hash (prop "password" b) 10 = Ok hashed ->
  save user d = (Ok tt, d') ->
  findOne_email (prop "email" b) d' = Ok (Some user) ->
  bcrypt_compare (prop "password" b) (of_opt (passwordHash user)) = Ok true ->
  db (snd (run cfg PostRegister req now d)) = d'
  /\ run cfg PostRegister req later d'
     = (Ok tt, MkSt (MkRes 409 [] (Some (Json (message "User already exists")))) d' [] later)
  /\ db (snd (run cfg PostLogin req later d')) = d'
  /\ res (snd (run cfg PostLogin req later d')) = res (snd (run cfg PostRegister req now d))
  /\ statusCode (res (snd (run cfg PostLogin req later d'))) = 200.
Proof.
  intros b user Hmode Hb He Hp Hnone Hhash Hsave Hstored Hcmp. subst user b.
  unfold run, handler, Server.register, register_try, Server.login, login_try,
    issue_session.
  run_eff. rewrite Hb, He, Hp, Hmode. cbn [negb orb db].
  rewrite Hnone, Hhash, Hstored. cbn [db]. rewrite Hsave, Hcmp.
  cbn [fst snd res db negb]. repeat split; reflexivity.
Qed.

Lemma register_then_conflict_and_login_witness :
  let req := Memory.post [("email", VStr "b@x.com"); ("password", VStr "p2")] in
  let d' := Memory.MkDb [Memory.alice;
                         MkUser "u1" None None (Some "b@x.com") (Some "$2b$10$p2")
                                None None None] true in
  db (snd (run (UM := Memory.user_model) (AM := Memory.analysis_model)
               (BC := Memory.bcrypt) (JW := Memory.jwt)
               Memory.cookie_mode PostRegister req 3 Memory.one_user)) = d'
  /\ run (UM := Memory.user_model) (AM := Memory.analysis_model)
         (BC := Memory.bcrypt) (JW := Memory.jwt)
         Memory.cookie_mode PostRegister req 9 d'
     = (Ok tt, MkSt (MkRes 409 [] (Some (Json (message "User already exists")))) d' [] 9)
  /\ db (snd (run (UM := Memory.user_model) (AM := Memory.analysis_model)
                  (BC := Memory.bcrypt) (JW := Memory.jwt)
                  Memory.cookie_mode PostLogin req 9 d')) = d'
  /\ res (snd (run (UM := Memory.user_model) (AM := Memory.analysis_model)
                   (BC := Memory.bcrypt) (JW := Memory.jwt)
                   Memory.cookie_mode PostLogin req 9 d'))
     = res (snd (run (UM := Memory.user_model) (AM := Memory.analysis_model)
                     (BC := Memory.bcrypt) (JW := Memory.jwt)
                     Memory.cookie_mode PostRegister req 3 Memory.one_user))
  /\ statusCode (res (snd (run (UM := Memory.user_model) (AM := Memory.analysis_model)
                               (BC := Memory.bcrypt) (JW := Memory.jwt)
                               Memory.cookie_mode PostLogin req 9 d'))) = 200.
Proof.
  apply (register_then_conflict_and_login
           (UM := Memory.user_model) (AM := Memory.analysis_model)
           (BC := Memory.bcrypt) (JW := Memory.jwt)
           Memory.cookie_mode
           (Memory.post [("email", VStr "b@x.com"); ("password", VStr "p2")])
           3 9 Memory.one_user
           (Memory.MkDb [Memory.alice;
                         MkUser "u1" None None (Some "b@x.com") (Some "$2b$10$p2")
                                None None None] true)
           "$2b$10$p2");
    vm_compute; reflexivity.
Defined.

(** ** What the routes write *)

Section Writes.

Context {D : Type} {UM : UserModel D} {AM : AnalysisModel D} {BC : Bcrypt} {JW : Jwt}.

Lemma resolve_user_db (cfg : Config) (req : Req) (s : St D) :
  db (snd (resolve_user cfg req s)) = db s.
Proof.
  pose proof (resolve_user_cases cfg req s) as Hr.
  destruct (resolve_user cfg req s) as [[[[]|[u|]]|e] s']; cbn [snd];
    try (subst s'; reflexivity).
  destruct Hr as [-> _]. reflexivity.
Qed.

Lemma run_reads_only (cfg : Config) (r : Route) (req : Req) (now : Z) (d : D) :
  r <> PostRegister -> db (snd (run cfg r req now d)) = d.
Proof.
  intros Hr. destruct r; try contradiction; unfold run, handler.
  - unfold Server.login, login_try, issue_session. run_eff.
    repeat (break_innermost; cbn); reflexivity.
  - pose proof (resolve_user_db cfg req (arrival now d)) as Hd.
    unfold me, me_try. rewrite try_catch_bind.
    destruct (resolve_user cfg req (arrival now d)) as [[[[]|[u|]]|e] s'];
      cbn [snd] in Hd; run_eff; exact Hd.
  - reflexivity.
  - pose proof (resolve_user_db cfg req (arrival now d)) as Hd.
    unfold profile, profile_try. rewrite try_catch_bind.
    destruct (resolve_user cfg req (arrival now d)) as [[[[]|[u|]]|e] s'];
      cbn [snd] in Hd; run_eff; exact Hd.
  - unfold category_counts, category_counts_try. run_eff.
    repeat (break_innermost; cbn); reflexivity.
  - unfold history, history_try. run_eff.
    repeat (break_innermost; cbn); reflexivity.
  - reflexivity.
Qed.

End Writes.

(** Only registration writes.  Whatever requests arrive on the other
    seven routes, in whatever order, with whatever outcome (errors
    included), the store of the process is afterwards what it was. *)
Theorem only_register_writes
    {D : Type} {UM : UserModel D} {AM : AnalysisModel D} {BC : Bcrypt} {JW : Jwt}
    (p : Process D) (reqs : list Incoming) :
  Forall reads_only reqs ->
  store (snd (serve_all p reqs)) = store p.
Proof.
  intros Hall. revert p.
  induction Hall as [|[[r req] now] rest Hr _ IH]; intros p; [reflexivity|].
  cbn [serve_all]. unfold reads_only in Hr. cbn [fst] in Hr.
  pose proof (run_reads_only (config p) r req now (store p) Hr) as Hd.
  unfold serve at 1. cbn zeta.
  specialize (IH (MkProcess (config p) (db (snd (run (config p) r req now (store p)))))).
  destruct (serve_all _ rest) as [rs p'']. cbn [snd store] in *. congruence.
Qed.

Lemma only_register_writes_witness :
  store (snd (serve_all (UM := Memory.user_model) (AM := Memory.analysis_model)
                        (BC := Memory.bcrypt) (JW := Memory.jwt)
                        (start {["JWT_SECRET" := "s3cret"]} Memory.one_user)
                        [(PostLogin,
                          Memory.post [("email", VStr "a@x.com"); ("password", VStr "p1")],
                          1);
                         (GetMe, Memory.get [("token", "s3cret.u0")], 2);
                         (GetProfile, Memory.get [("token", "garbage")], 3);
                         (PostLogout, Memory.get [], 4)]))
  = store (start {["JWT_SECRET" := "s3cret"]} Memory.one_user).
Proof.
  apply (only_register_writes
           (UM := Memory.user_model) (AM := Memory.analysis_model)
           (BC := Memory.bcrypt) (JW := Memory.jwt)).
  repeat constructor; discriminate.
Defined.

(** No response of register or of login, successful or not, carries a
    [passwordHash] field: the summary they send is built from the id, the
    email and the full name only. *)
Theorem session_responses_omit_passwordHash
    {D : Type} {UM : UserModel D} {AM : AnalysisModel D} {BC : Bcrypt} {JW : Jwt}
    (cfg : Config) (req : Req) (now : Z) (d : D) :
  mentions "passwordHash" (res (snd (run cfg PostRegister req now d))) = false
  /\ mentions "passwordHash" (res (snd (run cfg PostLogin req now d))) = false.
Proof.
  unfold mentions, run, handler, Server.register, register_try, Server.login, login_try,
    issue_session, user_summary, of_opt.
  run_eff. split; repeat (break_innermost; cbn); reflexivity.
Qed.

(** ** Where the identity endpoints take the credential from *)

Lemma split_no_space (s : string) :
  no_space s = true -> split " "%char s = [s].
Proof.
  induction s as [|c s IH]; [reflexivity|]. cbn.
  destruct (Ascii.eqb c " "%char); [discriminate|]. cbn.
  intros Hs. rewrite (IH Hs). reflexivity.
Qed.

Lemma split_app_space (a b : string) :
  no_space a = true ->
  split " "%char (a ++ String " "%char b) = a :: split " "%char b.
Proof.
  induction a as [|c a IH]; [reflexivity|]. intros Ha. cbn [no_space] in Ha.
  change (String c a ++ String " "%char b) with (String c (a ++ String " "%char b)).
  cbn [split]. destruct (Ascii.eqb c " "%char); [discriminate|].
  rewrite (IH Ha). reflexivity.
Qed.

Section Credentials.

Context {D : Type} {UM : UserModel D} {AM : AnalysisModel D} {BC : Bcrypt} {JW : Jwt}.

(** Both identity endpoints depend on the request through the identity
    lookup only. *)
Lemma identity_endpoints_by_lookup (cfg : Config) (req1 req2 : Req) (now : Z) (d : D) :
  resolve_user cfg req1 = resolve_user cfg req2 ->
  run cfg GetMe req1 now d = run cfg GetMe req2 now d
  /\ run cfg GetProfile req1 now d = run cfg GetProfile req2 now d.
Proof.
  intros Heq. unfold run, handler, me, me_try, profile, profile_try.
  rewrite Heq. split; reflexivity.
Qed.

End Credentials.



(** The header fallback of token mode.  Without a [token] cookie, an
    [authorization] header made of any one word, a space, and a token
    without spaces is answered exactly as a [token] cookie holding that
    token would be.  The word is not compared with "Bearer". *)
Theorem authorization_header_as_token_cookie
    {D : Type} {UM : UserModel D} {AM : AnalysisModel D} {BC : Bcrypt} {JW : Jwt}
    (cfg : Config) (b : value) (c h : gmap string string) (scheme t : string)
    (now : Z) (d : D) :
  USE_JWT cfg = true ->
  no_space scheme = true ->
  no_space t = true ->
  let by_header := MkReq b (delete "token" c)
                         (<["authorization" := scheme ++ " " ++ t]> h) in
  let by_cookie := MkReq b (<["token" := t]> c) (delete "authorization" h) in
  run cfg GetMe by_header now d = run cfg GetMe by_cookie now d
  /\ run cfg GetProfile by_header now d = run cfg GetProfile by_cookie now d.
Proof.
  intros Hmode Hscheme Ht by_header by_cookie. apply identity_endpoints_by_lookup.
  unfold resolve_user, bearer, by_header, by_cookie. rewrite Hmode.
  cbn [cookies headers].
  rewrite lookup_delete_eq, !lookup_insert_eq, lookup_delete_eq.
  change (scheme ++ " " ++ t) with (scheme ++ String " "%char t).
  rewrite (split_app_space scheme t Hscheme), (split_no_space t Ht).
  cbn [lookup list_lookup of_opt]. unfold or_else, truthy.
  destruct (String.eqb t "") eqn:Hempty; cbn [negb]; rewrite ?Hempty; reflexivity.
Qed.

Lemma authorization_header_as_token_cookie_witness :
  let by_header := MkReq (VObj []) (delete "token" ∅)
                         (<["authorization" := "Basic" ++ " " ++ "s3cret.u0"]> ∅) in
  let by_cookie := MkReq (VObj []) (<["token" := "s3cret.u0"]> ∅)
                         (delete "authorization" ∅) in
  run (UM := Memory.user_model) (AM := Memory.analysis_model)
      (BC := Memory.bcrypt) (JW := Memory.jwt) Memory.token_mode GetMe by_header 0
      Memory.one_user
  = run (UM := Memory.user_model) (AM := Memory.analysis_model)
        (BC := Memory.bcrypt) (JW := Memory.jwt) Memory.token_mode GetMe by_cookie 0
        Memory.one_user
  /\ run (UM := Memory.user_model) (AM := Memory.analysis_model)
         (BC := Memory.bcrypt) (JW := Memory.jwt) Memory.token_mode GetProfile by_header 0
         Memory.one_user
     = run (UM := Memory.user_model) (AM := Memory.analysis_model)
           (BC := Memory.bcrypt) (JW := Memory.jwt) Memory.token_mode GetProfile by_cookie 0
           Memory.one_user.
Proof.
  apply (authorization_header_as_token_cookie
           (UM := Memory.user_model) (AM := Memory.analysis_model)
           (BC := Memory.bcrypt) (JW := Memory.jwt)
           Memory.token_mode (VObj []) ∅ ∅ "Basic" "s3cret.u0" 0 Memory.one_user);
    reflexivity.
Defined.

(** The header fallback of cookie mode.  Without a [user_email] cookie,
    an [x-user-email] header naming an email is answered exactly as a
    [user_email] cookie holding it would be: in this mode the request
    names the user it wants to be. *)
Theorem email_header_as_email_cookie
    {D : Type} {UM : UserModel D} {AM : AnalysisModel D} {BC : Bcrypt} {JW : Jwt}
    (cfg : Config) (b : value) (c h : gmap string string) (e : string)
    (now : Z) (d : D) :
  USE_JWT cfg = false ->
  let by_header := MkReq b (delete "user_email" c) (<["x-user-email" := e]> h) in
  let by_cookie := MkReq b (<["user_email" := e]> c) (delete "x-user-email" h) in
  run cfg GetMe by_header now d = run cfg GetMe by_cookie now d
  /\ run cfg GetProfile by_header now d = run cfg GetProfile by_cookie now d.
Proof.
  intros Hmode by_header by_cookie. apply identity_endpoints_by_lookup.
  unfold resolve_user, by_header, by_cookie. rewrite Hmode.
  cbn [cookies headers].
  rewrite lookup_delete_eq, !lookup_insert_eq, lookup_delete_eq.
  cbn [of_opt]. unfold or_else, truthy.
  destruct (String.eqb e "") eqn:Hempty; cbn [negb]; rewrite ?Hempty; reflexivity.
Qed.

Lemma email_header_as_email_cookie_witness :
  let by_header := MkReq (VObj []) (delete "user_email" ∅) (<["x-user-email" := "a@x.com"]> ∅) in
  let by_cookie := MkReq (VObj []) (<["user_email" := "a@x.com"]> ∅)
                         (delete "x-user-email" ∅) in
  run (UM := Memory.user_model) (AM := Memory.analysis_model)
      (BC := Memory.bcrypt) (JW := Memory.jwt) Memory.cookie_mode GetMe by_header 0
      Memory.one_user
  = run (UM := Memory.user_model) (AM := Memory.analysis_model)
        (BC := Memory.bcrypt) (JW := Memory.jwt) Memory.cookie_mode GetMe by_cookie 0
        Memory.one_user
  /\ run (UM := Memory.user_model) (AM := Memory.analysis_model)
         (BC := Memory.bcrypt) (JW := Memory.jwt) Memory.cookie_mode GetProfile by_header 0
         Memory.one_user
     = run (UM := Memory.user_model) (AM := Memory.analysis_model)
           (BC := Memory.bcrypt) (JW := Memory.jwt) Memory.cookie_mode GetProfile by_cookie 0
           Memory.one_user.
Proof.
  apply (email_header_as_email_cookie
           (UM := Memory.user_model) (AM := Memory.analysis_model)
           (BC := Memory.bcrypt) (JW := Memory.jwt)
           Memory.cookie_mode (VObj []) ∅ ∅ "a@x.com" 0 Memory.one_user).
  reflexivity.
Defined.

(** ** The two identity endpoints side by side *)





(** A session that outlives its user.  When the credential is accepted
    (the token verifies, or an email is named) but the lookup finds no
    document, both identity endpoints answer 404
    [{message: "User not found"}]. *)
Theorem vanished_user_is_404
    {D : Type} {UM : UserModel D} {AM : AnalysisModel D} {BC : Bcrypt} {JW : Jwt}
    (cfg : Config) (req : Req) (now : Z) (d : D) :
  (if USE_JWT cfg then
     let token := or_else (of_opt (cookies req !! "token")) (bearer req) in
     truthy token = true
     /\ exists decoded,
          jwt_verify token (of_opt (JWT_SECRET cfg)) now = Ok decoded
          /\ destructurable decoded = Ok tt
          /\ findById (prop "id" decoded) d = Ok None
   else
     let email := or_else (of_opt (cookies req !! "user_email"))
                          (of_opt (headers req !! "x-user-email")) in
     truthy email = true /\ findOne_email email d = Ok None) ->
  res (snd (run cfg GetMe req now d))
    = MkRes 404 [] (Some (Json (message "User not found")))
  /\ res (snd (run cfg GetProfile req now d))
     = MkRes 404 [] (Some (Json (message "User not found"))).
Proof.
  unfold run, handler, me, me_try, profile, profile_try, resolve_user.
  destruct (USE_JWT cfg); cbn zeta.
  - intros (Htok & decoded & Hv & Hd & Hf). rewrite Htok. run_eff.
    cbn [negb clock db]. rewrite Hv, Hd, Hf. split; reflexivity.
  - intros (Hem & Hf). rewrite Hem. run_eff.
    cbn [negb clock db]. rewrite Hf. split; reflexivity.
Qed.

Lemma vanished_user_is_404_witness :
  res (snd (run (UM := Memory.user_model) (AM := Memory.analysis_model)
                (BC := Memory.bcrypt) (JW := Memory.jwt)
                Memory.token_mode GetMe (Memory.get [("token", "s3cret.u9")]) 0
                Memory.one_user))
    = MkRes 404 [] (Some (Json (message "User not found")))
  /\ res (snd (run (UM := Memory.user_model) (AM := Memory.analysis_model)
                   (BC := Memory.bcrypt) (JW := Memory.jwt)
                   Memory.token_mode GetProfile (Memory.get [("token", "s3cret.u9")]) 0
                   Memory.one_user))
     = MkRes 404 [] (Some (Json (message "User not found"))).
Proof.
  apply (vanished_user_is_404
           (UM := Memory.user_model) (AM := Memory.analysis_model)
           (BC := Memory.bcrypt) (JW := Memory.jwt)
           Memory.token_mode (Memory.get [("token", "s3cret.u9")]) 0 Memory.one_user).
  cbn. split; [reflexivity|]. exists (VObj [("id", VStr "u9")]).
  repeat split; vm_compute; reflexivity.
Defined.

(** ** The routes that ask for no identity *)



(** * Further properties of the client *)

Ltac run_forms :=
  unfold Client.login, Client.register, try_catch, try_finally, bind, ret, eval,
    setUser, setLoading, setIsAuthenticated, navigate, toast, Client.console_error in *;
  cbn [fst snd user loading isAuthenticated location toasts Client.console] in *.

(** ** Login *)

(** Only a successful login changes who is signed in.  Whatever the
    network does, [login] returns a result object, leaves the loading
    flag cleared and shows at most one toast; either the result says
    [success: true], the store is authenticated with the user of the
    response and the welcome toast is shown, or the result says
    [success: false] and user and authenticated flag are what they were
    before the call, a signed-in user included. *)
Theorem login_changes_identity_only_on_success
    {NET : Network} (apiBase : string) (email password : value) (s : Store) :
  exists (result : value) (s' : Store),
    Client.login apiBase email password s = (Ok result, s')
    /\ loading s' = false
    /\ location s' = location s
    /\ ((prop "success" result = VBool true
         /\ isAuthenticated s' = true /\ truthy (user s') = true
         /\ toasts s'
            = (toasts s ++ [MkToast "Welcome back!" "Successfully logged in" None])%list)
        \/ (prop "success" result = VBool false
            /\ user s' = user s /\ isAuthenticated s' = isAuthenticated s
            /\ (toasts s' = toasts s \/ exists t, toasts s' = (toasts s ++ [t])%list))).
Proof.
  run_forms. destruct (fetch _ _) as [r|e]; cbn.
  2:{ eexists _, _. split; [reflexivity|]. cbn. intuition eauto. }
  destruct (ok r); cbn.
  - destruct (destructurable _) as [[]|e]; cbn.
    + destruct (truthy (prop "user" _)) eqn:Hu; cbn.
      * eexists _, _. split; [reflexivity|]. cbn. intuition eauto.
      * destruct (500 <=? status r)%Z; cbn;
          eexists _, _; (split; [reflexivity|]); cbn; intuition eauto.
    + eexists _, _. split; [reflexivity|]. cbn. intuition eauto.
  - destruct (destructurable _) as [[]|e]; cbn.
    + destruct (500 <=? status r)%Z; cbn;
        eexists _, _; (split; [reflexivity|]); cbn; intuition eauto.
    + eexists _, _. split; [reflexivity|]. cbn. intuition eauto.
Qed.

(** An ordinary refusal is silent.  When the login request is answered
    with a status below 500 that is not a success, no toast is shown and
    nothing but the loading flag changes; the result carries the status
    and, as error, the server's message when the body has one, else
    "Invalid email or password" for a 401 and "Login failed" otherwise
    (a body that is not JSON counts as an empty object). *)
Theorem login_refusal_is_silent
    {NET : Network} (apiBase : string) (email password : value) (s : Store)
    (r : Response) :
  fetch (apiBase ++ "/api/auth/login")
        (MkInit "POST" [("Content-Type", "application/json")] "include"
                (Some (VObj [("email", email); ("password", password)]))) = Ok r ->
  ok r = false ->
  (status r < 500)%Z ->
  let data := match json r with Ok v => v | Throw _ => VObj [] end in
  destructurable data = Ok tt ->
  Client.login apiBase email password s
  = (Ok (VObj [("success", VBool false);
               ("error", or_else (prop "message" data)
                                 (VStr (if (status r =? 401)%Z
                                        then "Invalid email or password"
                                        else "Login failed")));
               ("status", VNum (status r))]),
     MkStore (user s) false (isAuthenticated s) (location s) (toasts s) (Client.console s)).
Proof.
  intros Hfetch Hok Hlt data Hdata. subst data. run_forms.
  rewrite Hfetch. cbn. rewrite Hok. cbn. rewrite Hdata. cbn.
  apply Z.leb_gt in Hlt. rewrite Hlt. reflexivity.
Qed.

Lemma login_refusal_is_silent_witness :
  Client.login
    (NET := Wire.answering (MkResponse 401 (Throw (MkExn "SyntaxError" "not JSON"))))
    "http://localhost:5000" (VStr "a@x.com") (VStr "wrong") (initial "/login")
  = (Ok (VObj [("success", VBool false);
               ("error", or_else (prop "message" (VObj []))
                                 (VStr (if (401 =? 401)%Z
                                        then "Invalid email or password"
                                        else "Login failed")));
               ("status", VNum 401)]),
     MkStore VNull false false "/login" [] []).
Proof.
  apply (login_refusal_is_silent
           (NET := Wire.answering (MkResponse 401 (Throw (MkExn "SyntaxError" "not JSON"))))
           "http://localhost:5000" (VStr "a@x.com") (VStr "wrong") (initial "/login")
           (MkResponse 401 (Throw (MkExn "SyntaxError" "not JSON")))).
  - reflexivity.
  - reflexivity.
  - reflexivity.
  - reflexivity.
Defined.

(** From the login form to the server and back, with the network
    delivering the server's answer.  When the lookup finds no user, or
    finds one and [bcrypt.compare] resolves to false, the client's
    result is the same: [success: false], error "Invalid credentials",
    status 401, no toast, nobody signed in or out.  When the lookup finds
    a user and [bcrypt.compare] rejects (a missing password, or one that
    is not a string), the client instead returns status 500 with error
    "Server error" and shows the "Server error" toast: the difference the
    server makes between the two emails reaches the person at the form. *)
Theorem login_failure_as_the_client_sees_it
    {D : Type} {UM : UserModel D} {AM : AnalysisModel D} {BC : Bcrypt} {JW : Jwt}
    {NET : Network}
    (cfg : Config) (req : Req) (now : Z) (d : D)
    (apiBase : string) (email password : value) (s : Store) :
  destructurable (body req) = Ok tt ->
  fetch (apiBase ++ "/api/auth/login")
        (MkInit "POST" [("Content-Type", "application/json")] "include"
                (Some (VObj [("email", email); ("password", password)])))
  = Ok (Wire.deliver (res (snd (run cfg PostLogin req now d)))) ->
  ((findOne_email (prop "email" (body req)) d = Ok None
    \/ exists u,
         findOne_email (prop "email" (body req)) d = Ok (Some u)
         /\ bcrypt_compare (prop "password" (body req)) (of_opt (passwordHash u))
            = Ok false) ->
   Client.login apiBase email password s
   = (Ok (VObj [("success", VBool false); ("error", VStr "Invalid credentials");
                ("status", VNum 401)]),
      MkStore (user s) false (isAuthenticated s) (location s) (toasts s)
              (Client.console s)))
  /\ ((exists u e,
         findOne_email (prop "email" (body req)) d = Ok (Some u)
         /\ bcrypt_compare (prop "password" (body req)) (of_opt (passwordHash u))
            = Throw e) ->
      Client.login apiBase email password s
      = (Ok (VObj [("success", VBool false); ("error", VStr "Server error");
                   ("status", VNum 500)]),
         MkStore (user s) false (isAuthenticated s) (location s)
                 (toasts s ++ [MkToast "Server error" "Server error"
                                       (Some "destructive")])%list
                 (Client.console s))).
Proof.
  intros Hb Hfetch. split.
  - intros Hfail.
    assert (Hres : res (snd (run cfg PostLogin req now d))
                   = MkRes 401 [] (Some (Json (message "Invalid credentials")))).
    { unfold run, handler, Server.login, login_try. run_eff. rewrite Hb. cbn [db].
      destruct Hfail as [-> | (u & -> & ->)]; reflexivity. }
    rewrite Hres in Hfetch. run_forms. rewrite Hfetch. reflexivity.
  - intros (u & e & Hfound & Hcmp).
    assert (Hres : res (snd (run cfg PostLogin req now d))
                   = MkRes 500 [] (Some (Json (message "Server error")))).
    { unfold run, handler, Server.login, login_try. run_eff. rewrite Hb. cbn [db].
      rewrite Hfound, Hcmp. reflexivity. }
    rewrite Hres in Hfetch. run_forms. rewrite Hfetch. reflexivity.
Qed.

Lemma login_failure_as_the_client_sees_it_witness :
  Client.login
    (NET := Wire.loopback (UM := Memory.user_model) (AM := Memory.analysis_model)
                          (BC := Memory.bcrypt) (JW := Memory.jwt)
                          Memory.token_mode Memory.one_user 0 ∅ "http://localhost:5000")
    "http://localhost:5000" (VStr "a@x.com") (VStr "wrong") (initial "/login")
  = (Ok (VObj [("success", VBool false); ("error", VStr "Invalid credentials");
               ("status", VNum 401)]),
     MkStore VNull false false "/login" [] [])
  /\ Client.login
       (NET := Wire.loopback (UM := Memory.user_model) (AM := Memory.analysis_model)
                             (BC := Memory.bcrypt) (JW := Memory.jwt)
                             Memory.token_mode Memory.one_user 0 ∅ "http://localhost:5000")
       "http://localhost:5000" (VStr "a@x.com") VNull (initial "/login")
     = (Ok (VObj [("success", VBool false); ("error", VStr "Server error");
                  ("status", VNum 500)]),
        MkStore VNull false false "/login"
                [MkToast "Server error" "Server error" (Some "destructive")] []).
Proof.
  split.
  - destruct (login_failure_as_the_client_sees_it
                (UM := Memory.user_model) (AM := Memory.analysis_model)
                (BC := Memory.bcrypt) (JW := Memory.jwt)
                (NET := Wire.loopback (UM := Memory.user_model)
                                      (AM := Memory.analysis_model)
                                      (BC := Memory.bcrypt) (JW := Memory.jwt)
                                      Memory.token_mode Memory.one_user 0 ∅
                                      "http://localhost:5000")
                Memory.token_mode
                (Wire.outgoing ∅ (MkInit "POST" [("Content-Type", "application/json")]
                                         "include"
                                         (Some (VObj [("email", VStr "a@x.com");
                                                      ("password", VStr "wrong")]))))
                0 Memory.one_user "http://localhost:5000" (VStr "a@x.com") (VStr "wrong")
                (initial "/login")) as [Hrefused _].
    + reflexivity.
    + vm_compute. reflexivity.
    + apply Hrefused. right. exists Memory.alice. split; vm_compute; reflexivity.
  - destruct (login_failure_as_the_client_sees_it
                (UM := Memory.user_model) (AM := Memory.analysis_model)
                (BC := Memory.bcrypt) (JW := Memory.jwt)
                (NET := Wire.loopback (UM := Memory.user_model)
                                      (AM := Memory.analysis_model)
                                      (BC := Memory.bcrypt) (JW := Memory.jwt)
                                      Memory.token_mode Memory.one_user 0 ∅
                                      "http://localhost:5000")
                Memory.token_mode
                (Wire.outgoing ∅ (MkInit "POST" [("Content-Type", "application/json")]
                                         "include"
                                         (Some (VObj [("email", VStr "a@x.com");
                                                      ("password", VNull)]))))
                0 Memory.one_user "http://localhost:5000" (VStr "a@x.com") VNull
                (initial "/login")) as [_ Hthrown].
    + reflexivity.
    + vm_compute. reflexivity.
    + apply Hthrown. exists Memory.alice, (MkExn "Error" "data and hash arguments required").
      split; vm_compute; reflexivity.
Defined.

(** ** Register *)

(** Registering never signs anybody in.  Whatever the network does,
    [register] returns a result object, shows exactly one toast, clears
    the loading flag and leaves user, authenticated flag and location as
    they were; the result says [success: true] exactly when the response
    has a 2xx status and a body that parses as JSON. *)
Theorem register_never_signs_in
    {NET : Network} (apiBase : string) (userData : value) (s : Store) :
  exists (result : value) (t : Toast),
    Client.register apiBase userData s
    = (Ok result,
       MkStore (user s) false (isAuthenticated s) (location s) (toasts s ++ [t])%list
               (Client.console s))
    /\ (prop "success" result = VBool true
        <-> exists r data,
              fetch (apiBase ++ "/api/auth/register")
                    (MkInit "POST" [("Content-Type", "application/json")] "include"
                            (Some userData)) = Ok r
              /\ ok r = true /\ json r = Ok data).
Proof.
  run_forms. destruct (fetch _ _) as [r|e]; cbn.
  2:{ eexists _, _. split; [reflexivity|]. cbn. split; [discriminate|].
      intros (r & data & Hr & _). discriminate. }
  destruct (json r) as [data|e] eqn:Hj; cbn.
  2:{ eexists _, _. split; [reflexivity|]. cbn. split; [discriminate|].
      intros (r' & data & [= <-] & _ & Hd). congruence. }
  destruct (ok r) eqn:Hok; cbn.
  - eexists _, _. split; [reflexivity|]. cbn. split; eauto.
  - destruct (destructurable data) as [[]|e]; cbn;
      eexists _, _; (split; [reflexivity|]); cbn;
      (split; [discriminate|]); intros (r' & data' & [= <-] & Hok' & _); congruence.
Qed.

(** ** The status check against this server *)

(** The password hash never reaches the client store.  When the network
    delivers the server's answer to [/api/auth/me], whatever the
    request, mode and store on the server side, the user held by the
    client after [checkAuthStatus] has no [passwordHash] field, provided
    the one it held before had none. *)
Theorem passwordHash_never_reaches_client
    {D : Type} {UM : UserModel D} {AM : AnalysisModel D} {BC : Bcrypt} {JW : Jwt}
    {NET : Network}
    (cfg : Config) (req : Req) (now : Z) (d : D) (apiBase : string) (s : Store) :
  fetch (apiBase ++ "/api/auth/me")
        (MkInit "GET" [("Content-Type", "application/json")] "include" None)
  = Ok (Wire.deliver (res (snd (run cfg GetMe req now d)))) ->
  has_key "passwordHash" (user s) = false ->
  has_key "passwordHash" (user (snd (checkAuthStatus apiBase s))) = false.
Proof.
  intros Hfetch Hbefore.
  pose proof (resolve_user_cases cfg req (arrival now d)) as Hr.
  unfold run, handler, me, me_try in Hfetch. rewrite try_catch_bind in Hfetch.
  destruct (resolve_user cfg req (arrival now d)) as [[[[]|[u|]]|e] s'].
  - subst s'. run_client. rewrite Hfetch. reflexivity.
  - destruct Hr as [-> Hnone].
    destruct u as [i [f|] [di|] [em|] [ph|] [h|] [a|] [pp|]]; try discriminate Hnone;
      run_client; rewrite Hfetch; reflexivity.
  - subst s'. run_client. rewrite Hfetch. exact Hbefore.
  - subst s'. run_client. rewrite Hfetch. reflexivity.
Qed.

Lemma passwordHash_never_reaches_client_witness :
  has_key "passwordHash"
    (user (snd (checkAuthStatus
                  (NET := Wire.loopback (UM := Memory.user_model)
                                        (AM := Memory.analysis_model)
                                        (BC := Memory.bcrypt) (JW := Memory.jwt)
                                        Memory.cookie_mode Memory.one_user 0
                                        {["user_email" := "a@x.com"]}
                                        "http://localhost:5000")
                  "http://localhost:5000" (initial "/")))) = false.
Proof.
  apply (passwordHash_never_reaches_client
           (UM := Memory.user_model) (AM := Memory.analysis_model)
           (BC := Memory.bcrypt) (JW := Memory.jwt)
           (NET := Wire.loopback (UM := Memory.user_model) (AM := Memory.analysis_model)
                                 (BC := Memory.bcrypt) (JW := Memory.jwt)
                                 Memory.cookie_mode Memory.one_user 0
                                 {["user_email" := "a@x.com"]} "http://localhost:5000")
           Memory.cookie_mode
           (Wire.outgoing {["user_email" := "a@x.com"]}
                          (MkInit "GET" [("Content-Type", "application/json")]
                                  "include" None))
           0 Memory.one_user "http://localhost:5000" (initial "/")).
  - vm_compute. reflexivity.
  - reflexivity.
Defined.

(** A session that outlived its user stays signed in on the client.
    When the server answers the status check with 404 (the credential
    is accepted but the user is gone), [checkAuthStatus] only clears the
    loading flag: a client that was authenticated still is. *)
Theorem vanished_user_stays_signed_in
    {D : Type} {UM : UserModel D} {AM : AnalysisModel D} {BC : Bcrypt} {JW : Jwt}
    {NET : Network}
    (cfg : Config) (req : Req) (now : Z) (d : D) (apiBase : string) (s : Store) :
  fetch (apiBase ++ "/api/auth/me")
        (MkInit "GET" [("Content-Type", "application/json")] "include" None)
  = Ok (Wire.deliver (res (snd (run cfg GetMe req now d)))) ->
  statusCode (res (snd (run cfg GetMe req now d))) = 404 ->
  checkAuthStatus apiBase s
  = (Ok tt,
     MkStore (user s) false (isAuthenticated s) (location s) (toasts s) (Client.console s)).
Proof.
  intros Hfetch Hstatus. run_client. rewrite Hfetch.
  unfold ok, Wire.deliver. cbn [status]. rewrite Hstatus. reflexivity.
Qed.

Lemma vanished_user_stays_signed_in_witness :
  let s := MkStore (VObj [("email", VStr "gone@x.com")]) true true "/dashboard" [] [] in
  checkAuthStatus
    (NET := Wire.loopback (UM := Memory.user_model) (AM := Memory.analysis_model)
                          (BC := Memory.bcrypt) (JW := Memory.jwt)
                          Memory.cookie_mode Memory.one_user 0
                          {["user_email" := "gone@x.com"]} "http://localhost:5000")
    "http://localhost:5000" s
  = (Ok tt, MkStore (VObj [("email", VStr "gone@x.com")]) false true "/dashboard" [] []).
Proof.
  apply (vanished_user_stays_signed_in
           (UM := Memory.user_model) (AM := Memory.analysis_model)
           (BC := Memory.bcrypt) (JW := Memory.jwt)
           (NET := Wire.loopback (UM := Memory.user_model) (AM := Memory.analysis_model)
                                 (BC := Memory.bcrypt) (JW := Memory.jwt)
                                 Memory.cookie_mode Memory.one_user 0
                                 {["user_email" := "gone@x.com"]} "http://localhost:5000")
           Memory.cookie_mode
           (Wire.outgoing {["user_email" := "gone@x.com"]}
                          (MkInit "GET" [("Content-Type", "application/json")]
                                  "include" None))
           0 Memory.one_user "http://localhost:5000"
           (MkStore (VObj [("email", VStr "gone@x.com")]) true true "/dashboard" [] [])).
  - vm_compute. reflexivity.
  - vm_compute. reflexivity.
Defined.
